(** * AttendEase: attendance accounting of [routes/attendance.py] and
      enrollment of [routes/courses.py], over the schema of
      [backend/models.py].

    The handlers are embedded as pure functions from a database state (one
    list of rows per table, in insertion order) and the request to an HTTP
    response and, for the handlers that write, the database state after the
    request.

    Conventions of the embedding:
    - a query is read relationally: [filter_by(..).first()] is the first
      matching row of the table, [.all()] the matching rows in table order,
      a join keeps the rows whose foreign key finds its target, and a
      statement that joins one table twice under the same name is refused
      by the database when it is run;
    - a relationship has the shape its declaration gives it: the backref
      [student_profile] is declared without [uselist=False] and is a list;
    - a JSON field of a request body, when present, carries a value of the
      type of the column it is compared with;
    - an exception that a handler lets reach its [except Exception] clause
      is the 500 response of that clause; the handlers below raise only
      before any write, so the rollback leaves the database as it was;
    - floats are binary64 values of [SpecFloat], computed with its
      correctly rounded operations. *)

From Stdlib Require Import ZArith String Ascii SpecFloat.
From stdpp Require Import base tactics decidable option list strings.

Open Scope string_scope.
Open Scope Z_scope.

(** ** Enumerations of [models.py] *)

Inductive UserRole := ADMIN | LECTURER | STUDENT.
Inductive CourseStatus := ACTIVE | INACTIVE | COMPLETED.
Inductive AttendanceStatus := PRESENT | ABSENT | LATE | EXCUSED.

#[global] Instance UserRole_eq_dec : EqDecision UserRole.
Proof. solve_decision. Defined.
#[global] Instance CourseStatus_eq_dec : EqDecision CourseStatus.
Proof. solve_decision. Defined.
#[global] Instance AttendanceStatus_eq_dec : EqDecision AttendanceStatus.
Proof. solve_decision. Defined.

(** [AttendanceStatus.X.value] *)
Definition value (s : AttendanceStatus) : string :=
  match s with
  | PRESENT => "PRESENT"
  | ABSENT => "ABSENT"
  | LATE => "LATE"
  | EXCUSED => "EXCUSED"
  end.

(** [AttendanceStatus(v)]: lookup of a member by value; [None] stands for
    the [ValueError] of the enum call. *)
Definition AttendanceStatus_of_value (v : string) : option AttendanceStatus :=
  if decide (v = "PRESENT") then Some PRESENT
  else if decide (v = "ABSENT") then Some ABSENT
  else if decide (v = "LATE") then Some LATE
  else if decide (v = "EXCUSED") then Some EXCUSED
  else None.

(** ** [datetime.date], [datetime.time], [datetime.datetime] (naive) *)

Record date := Date { year : Z; month : Z; day : Z }.
Record time := Time { hour : Z; minute : Z; second : Z; microsecond : Z }.
Record datetime := DateTime { date_of : date; time_of : time }.

#[global] Instance date_eq_dec : EqDecision date.
Proof. solve_decision. Defined.
#[global] Instance time_eq_dec : EqDecision time.
Proof. solve_decision. Defined.
#[global] Instance datetime_eq_dec : EqDecision datetime.
Proof. solve_decision. Defined.

(** Python orders naive [time] objects as the tuples
    [(hour, minute, second, microsecond)], and [date] objects as
    [(year, month, day)]. *)
Definition lex (c1 c2 : comparison) : comparison :=
  match c1 with Eq => c2 | _ => c1 end.

Definition time_cmp (a b : time) : comparison :=
  lex (hour a ?= hour b)
   (lex (minute a ?= minute b)
     (lex (second a ?= second b) (microsecond a ?= microsecond b))).

Definition date_cmp (a b : date) : comparison :=
  lex (year a ?= year b) (lex (month a ?= month b) (day a ?= day b)).

(** [a > b] on times *)
Definition time_gt (a b : time) : bool :=
  match time_cmp a b with Gt => true | _ => false end.

(** [a >= b] and [a <= b] on dates *)
Definition date_ge (a b : date) : bool :=
  match date_cmp a b with Lt => false | _ => true end.
Definition date_le (a b : date) : bool :=
  match date_cmp a b with Gt => false | _ => true end.

(** A time of day whose fields are in the ranges the [time] constructor
    accepts, and its offset from midnight in microseconds. *)
Definition time_valid (t : time) : Prop :=
  0 <= hour t < 24 /\ 0 <= minute t < 60 /\ 0 <= second t < 60
  /\ 0 <= microsecond t < 1000000.

Definition micros_since_midnight (t : time) : Z :=
  ((hour t * 60 + minute t) * 60 + second t) * 1000000 + microsecond t.

(** ** Rows of the tables of [models.py]

    One module per model class, so that columns keep their names. *)

Module User.
Record t := mk { id : Z; email : string; role : UserRole; is_active : bool }.
End User.

Module Student.
Record t := mk {
  id : Z; user_id : Z; student_id : string;
  department : option string; year_of_study : option Z }.
End Student.

Module Course.
Record t := mk {
  id : Z; course_code : string; course_name : string;
  lecturer_id : Z; status : CourseStatus }.
End Course.

Module Enrollment.
Record t := mk {
  id : Z; student_id : Z; course_id : Z;
  enrolled_at : datetime; is_active : bool }.
End Enrollment.

Module Session.
Record t := mk {
  id : Z; course_id : Z; session_name : string; session_date : date;
  start_time : time; end_time : time; is_active : bool;
  attendance_open : bool }.
End Session.

Module AttendanceRecord.
Record t := mk {
  id : Z; session_id : Z; student_id : Z; status : AttendanceStatus;
  marked_at : datetime; marked_by : option Z; notes : option string }.
End AttendanceRecord.

#[global] Instance User_eq_dec : EqDecision User.t.
Proof. solve_decision. Defined.
#[global] Instance Student_eq_dec : EqDecision Student.t.
Proof. solve_decision. Defined.
#[global] Instance Course_eq_dec : EqDecision Course.t.
Proof. solve_decision. Defined.
#[global] Instance Enrollment_eq_dec : EqDecision Enrollment.t.
Proof. solve_decision. Defined.
#[global] Instance Session_eq_dec : EqDecision Session.t.
Proof. solve_decision. Defined.
#[global] Instance AttendanceRecord_eq_dec : EqDecision AttendanceRecord.t.
Proof. solve_decision. Defined.

(** The database: one list of rows per table. *)
Record DB := mkDB {
  users : list User.t;
  students : list Student.t;
  courses : list Course.t;
  enrollments : list Enrollment.t;
  sessions : list Session.t;
  attendance_records : list AttendanceRecord.t }.

(** ** The query interface *)

Section Query.
Context {A : Type}.

(** [Model.query.filter_by(...).first()]: the first row that matches. *)
Definition first (P : A -> Prop) `{!forall x, Decision (P x)} (tbl : list A)
  : option A :=
  snd <$> list_find P tbl.

(** [Model.query.get(pk)] *)
Definition get (pk : A -> Z) (tbl : list A) (i : Z) : option A :=
  first (fun x => pk x = i) tbl.

(** The integer primary key that [db.session.add] and [commit] give a new
    row: one more than the largest key of the table. *)
Definition next_id (pk : A -> Z) (tbl : list A) : Z :=
  foldr (fun x m => Z.max (pk x) m) 0 tbl + 1.

End Query.

(** ** Python numbers: [int], and [float] as IEEE 754 binary64 *)

Inductive pynum := PyInt (n : Z) | PyFloat (x : spec_float).

(** An integer as an exact (not normalised) operand of a float operation. *)
Definition float_operand (s : bool) (n : Z) : spec_float :=
  match n with
  | Z0 => S754_zero s
  | Zpos p => S754_finite s p 0
  | Zneg p => S754_finite (negb s) p 0
  end.

(** [float(n)] for an integer that a binary64 holds exactly *)
Definition float_of_int (n : Z) : spec_float := binary_normalize 53 1024 n 0 false.

(** [a / b] on two [int]s: the quotient correctly rounded to binary64;
    [None] stands for [ZeroDivisionError]. *)
Definition truediv (a b : Z) : option spec_float :=
  if decide (b = 0) then None
  else Some (SFdiv 53 1024 (float_operand false a) (float_operand false b)).

(** [x * n] for a float [x] and a small [int] [n] *)
Definition float_mul_int (x : spec_float) (n : Z) : spec_float :=
  SFmul 53 1024 x (float_of_int n).

(** The integer nearest to [a / b] for [b > 0], ties to even. *)
Definition round_half_even_div (a b : Z) : Z :=
  let q := a / b in
  match 2 * (a mod b) ?= b with
  | Lt => q
  | Gt => q + 1
  | Eq => if Z.even q then q else q + 1
  end.

(** [round(x, 2)] on a float: the decimal with two places nearest to the
    exact value of [x] (ties to even), read back as the nearest binary64.
    Infinities and NaN round to themselves. *)
Definition float_round2 (x : spec_float) : spec_float :=
  match x with
  | S754_finite s m e =>
      let hundredths :=
        if 0 <=? e then 100 * Zpos m * 2 ^ e
        else round_half_even_div (100 * Zpos m) (2 ^ (- e)) in
      SFdiv 53 1024 (float_operand s hundredths) (float_operand false 100)
  | _ => x
  end.

(** [round(v, 2)]: an [int] rounds to itself. *)
Definition round2 (v : pynum) : pynum :=
  match v with
  | PyInt n => PyInt n
  | PyFloat x => PyFloat (float_round2 x)
  end.

(** ** Requests and responses *)

(** The JWT subject. [auth.py] issues tokens with [identity=str(user.id)], so
    [get_jwt_identity()] is the string [str n] of an integer [n]. *)
Inductive identity := str (n : Z).

(** [int(current_user_id)] *)
Definition int (i : identity) : Z := let 'str n := i in n.

(** [lecturer_id != current_user_id] where the left side is an [int] column
    and the right side the identity string: an [int] and a [str] are never
    equal. *)
Definition int_ne_str (a : Z) (b : identity) : bool := true.

(** The value of the ['attendance'] key of a response: either
    [record.to_dict()] or the literal [{'status': 'ABSENT', 'marked_at': None}]. *)
Inductive attendance_dict :=
| record_dict (r : AttendanceRecord.t)
| absent_dict.

Definition to_dict (r : AttendanceRecord.t) : attendance_dict := record_dict r.

(** [d['status']] and [d['marked_at']] *)
Definition dict_status (d : attendance_dict) : string :=
  match d with
  | record_dict r => value (AttendanceRecord.status r)
  | absent_dict => "ABSENT"
  end.

Definition dict_marked_at (d : attendance_dict) : option datetime :=
  match d with
  | record_dict r => Some (AttendanceRecord.marked_at r)
  | absent_dict => None
  end.

Module SessionView.
Record entry := mk_entry { student : Student.t; attendance : attendance_dict }.
Record t := mk {
  session : Session.t;
  attendance_records : list entry;
  total_enrolled : Z;
  total_present : Z;
  total_absent : Z }.
End SessionView.

Module StudentView.
Record statistics := mk_statistics {
  total_sessions : Z; present : Z; late : Z; absent : Z; excused : Z;
  attendance_rate : pynum }.
Record t := mk {
  student : Student.t;
  attendance_records : list attendance_dict;
  stats : statistics }.
End StudentView.

Module CourseView.
Record cell := mk_cell { session : Session.t; attendance : attendance_dict }.
Record statistics := mk_statistics {
  total_sessions : Z; present : Z; late : Z; absent : Z;
  attendance_rate : pynum }.
Record student_attendance := mk_row {
  student : Student.t;
  sessions : list cell;
  stats : statistics }.
Record summary := mk_summary {
  total_students : Z; summary_total_sessions : Z; total_records : Z }.
Record t := mk {
  course : Course.t;
  course_sessions : list Session.t;
  attendance_matrix : list student_attendance;
  course_summary : summary }.
End CourseView.

(** The JSON bodies the handlers return. *)
Inductive json :=
| error (msg : string)
| error_attendance (msg : string) (attendance : attendance_dict)
| message (msg : string)
| message_attendance (msg : string) (attendance : attendance_dict)
| message_enrollment (msg : string) (enrollment : Enrollment.t)
| own_attendance (session : Session.t) (attendance : option attendance_dict)
| session_records (session : Session.t) (records : list attendance_dict)
| session_view (v : SessionView.t)
| student_view (v : StudentView.t)
| course_view (v : CourseView.t).

(** A response: body and HTTP status code. *)
Definition response : Type := json * Z.

(** Control flow of the handlers: a guard that returns early, and a query
    whose empty result returns early. *)
Notation "'return_if' c 'then' r 'otherwise' k" := (if c then r else k)
  (at level 10, c at level 200, r at level 200, k at level 200,
   format "'[v' 'return_if'  c  'then'  r  'otherwise' '/' k ']'").
Notation "'let_found' x := e 'else_return' r 'in' k" :=
  (match e with Some x => k | None => r end)
  (at level 10, x name, e at level 200, r at level 200, k at level 200,
   format "'[v' 'let_found'  x  :=  e  'else_return'  r  'in' '/' k ']'").

(** ** Relationships *)

(** [user.student_profile]: the backref that [Student.user] declares
    without [uselist=False], hence the list of the [Student] rows of the
    user. *)
Definition student_profile (db : DB) (user : User.t) : list Student.t :=
  filter (fun s => Student.user_id s = User.id user) (students db).

(** [not profiles]: a list is false exactly when it is empty. *)
Definition list_not {A : Type} (l : list A) : bool :=
  match l with
  | [] => true
  | _ :: _ => false
  end.

(** [profiles.id], the attribute [id] read on the list itself: a list has
    no such attribute, so the read raises [AttributeError] whatever the
    list holds; [None] stands for the exception, whose text is
    [no_attribute_id]. *)
Definition list_id (profiles : list Student.t) : option Z := None.

Definition no_attribute_id : string :=
  "'InstrumentedList' object has no attribute 'id'".

(** [session.course] *)
Definition session_course (db : DB) (s : Session.t) : option Course.t :=
  get Course.id (courses db) (Session.course_id s).

(** [Enrollment.query.filter_by(student_id=.., course_id=.., is_active=True).first()] *)
Definition active_enrollment (db : DB) (student_id course_id : Z)
  : option Enrollment.t :=
  first (fun e => Enrollment.student_id e = student_id
                  /\ Enrollment.course_id e = course_id
                  /\ Enrollment.is_active e = true) (enrollments db).

(** [AttendanceRecord.query.filter_by(session_id=.., student_id=..).first()] *)
Definition existing_record (db : DB) (session_id student_id : Z)
  : option AttendanceRecord.t :=
  first (fun r => AttendanceRecord.session_id r = session_id
                  /\ AttendanceRecord.student_id r = student_id)
        (attendance_records db).

(** [db.session.add(attendance); db.session.commit()] *)
Definition add_attendance (db : DB) (r : AttendanceRecord.t) : DB :=
  mkDB (users db) (students db) (courses db) (enrollments db) (sessions db)
       (attendance_records db ++ [r]).

(** ** [checkin] *)

Record checkin_data := { checkin_session_id : option Z }.

(** [now] is [datetime.now()], the local wall clock; [utcnow] is the
    [datetime.utcnow()] that the [marked_at] column defaults to. *)
Definition checkin (db : DB) (current_user_id : identity)
    (data : checkin_data) (now utcnow : datetime) : response * DB :=
  let_found user := get User.id (users db) (int current_user_id)
    else_return (error "Only students can check in", 403, db) in
  return_if bool_decide (User.role user <> STUDENT)
    then (error "Only students can check in", 403, db) otherwise
  return_if list_not (student_profile db user)
    then (error "Student profile not found", 404, db) otherwise
  let_found session_id := checkin_session_id data
    else_return (error "session_id is required", 400, db) in
  return_if bool_decide (session_id = 0)
    then (error "session_id is required", 400, db) otherwise
  let_found session := get Session.id (sessions db) session_id
    else_return (error "Session not found", 404, db) in
  return_if negb (Session.attendance_open session)
    then (error "Attendance is not open for this session", 400, db) otherwise
  let_found student_id := list_id (student_profile db user)
    else_return (error no_attribute_id, 500, db) in
  let_found enrollment :=
      active_enrollment db student_id (Session.course_id session)
    else_return (error "Not enrolled in this course", 403, db) in
  match existing_record db session_id student_id with
  | Some existing =>
      (error_attendance "Already checked in" (to_dict existing), 400, db)
  | None =>
      let now := time_of now in
      let status :=
        if time_gt now (Session.start_time session) then LATE else PRESENT in
      let attendance :=
        AttendanceRecord.mk
          (next_id AttendanceRecord.id (attendance_records db))
          session_id student_id status utcnow
          (Some (int current_user_id)) None in
      (message_attendance "Checked in successfully" (to_dict attendance), 201,
       add_attendance db attendance)
  end.

(** ** Queries shared by the aggregation views *)

(** [Student.query.join(Enrollment).filter(Enrollment.course_id == c,
    Enrollment.is_active == True).all()]: the students that have an active
    enrollment row in course [c], each student once. *)
Definition enrolled_students (db : DB) (course_id : Z) : list Student.t :=
  filter (fun s => Exists (fun e => Enrollment.student_id e = Student.id s
                                    /\ Enrollment.course_id e = course_id
                                    /\ Enrollment.is_active e = true)
                          (enrollments db))
         (students db).

(** A record joined to its session: [P] holds of the session row the record
    points to; a record without session row is not in the join. *)
Definition join_session (db : DB) (P : Session.t -> bool)
    (r : AttendanceRecord.t) : bool :=
  match get Session.id (sessions db) (AttendanceRecord.session_id r) with
  | Some s => P s
  | None => false
  end.

(** [len([r for r in records if r.status in statuses])] *)
Definition count_status (statuses : list AttendanceStatus)
    (records : list AttendanceRecord.t) : Z :=
  Z.of_nat (length (filter (fun r => AttendanceRecord.status r ∈ statuses) records)).

(** [len([r for r in dicts if r['status'] in names])] *)
Definition count_dict_status (names : list string)
    (dicts : list attendance_dict) : Z :=
  Z.of_nat (length (filter (fun d => dict_status d ∈ names) dicts)).

(** [(count / total * 100) if total > 0 else 0]; [None] stands for a
    [ZeroDivisionError] raised by the division. *)
Definition rate (count total : Z) : option pynum :=
  if 0 <? total
  then q ← truediv count total; Some (PyFloat (float_mul_int q 100))
  else Some (PyInt 0).

(** ** [get_session_attendance] *)

(** The lookup of one student's record among the session's records:
    [next((record for record in attendance_records
           if record.student_id == student.id), None)], then the entry of
    the student in the summary. *)
Definition session_entry (attendance_records : list AttendanceRecord.t)
    (student : Student.t) : SessionView.entry :=
  let attendance_record :=
    first (fun record => AttendanceRecord.student_id record = Student.id student)
          attendance_records in
  SessionView.mk_entry student
    (match attendance_record with
     | Some record => to_dict record
     | None => absent_dict
     end).

Definition get_session_attendance (db : DB) (current_user_id : identity)
    (session_id : Z) : response :=
  let_found user := get User.id (users db) (int current_user_id)
    else_return (error "User not found", 404) in
  let_found session := get Session.id (sessions db) session_id
    else_return (error "Session not found", 404) in
  match User.role user with
  | STUDENT =>
      let_found student_id := list_id (student_profile db user)
        else_return (error no_attribute_id, 500) in
      let_found enrollment :=
          active_enrollment db student_id (Session.course_id session)
        else_return (error "Not enrolled in this course", 403) in
      let attendance := existing_record db session_id student_id in
      (own_attendance session (to_dict <$> attendance), 200)
  | LECTURER =>
      let_found course := session_course db session
        else_return
          (error "'NoneType' object has no attribute 'lecturer_id'", 500) in
      return_if bool_decide (Course.lecturer_id course <> int current_user_id)
        then (error "Unauthorized", 403) otherwise
      let attendance_records :=
        filter (fun r => AttendanceRecord.session_id r = session_id)
               (attendance_records db) in
      let enrolled_students :=
        enrolled_students db (Session.course_id session) in
      let attendance_list :=
        session_entry attendance_records <$> enrolled_students in
      (session_view
         (SessionView.mk session attendance_list
            (Z.of_nat (length enrolled_students))
            (count_status [PRESENT; LATE] attendance_records)
            (Z.of_nat (length enrolled_students)
             - Z.of_nat (length attendance_records))),
       200)
  | ADMIN =>
      let attendance_records :=
        filter (fun r => AttendanceRecord.session_id r = session_id)
               (attendance_records db) in
      (session_records session (to_dict <$> attendance_records), 200)
  end.

(** ** [get_student_attendance] *)

Record student_args := {
  arg_course_id : option Z;      (* request.args.get('course_id', type=int) *)
  arg_date_from : option string; (* request.args.get('date_from') *)
  arg_date_to : option string }. (* request.args.get('date_to') *)

(** The statistics block of the student view; [None] when computing the
    rate raises. *)
Definition student_statistics (attendance_records : list AttendanceRecord.t)
  : option StudentView.statistics :=
  let total_sessions := Z.of_nat (length attendance_records) in
  let present_count := count_status [PRESENT] attendance_records in
  let late_count := count_status [LATE] attendance_records in
  let absent_count := count_status [ABSENT] attendance_records in
  let excused_count := count_status [EXCUSED] attendance_records in
  attendance_rate ← rate (present_count + late_count) total_sessions;
  Some (StudentView.mk_statistics total_sessions present_count late_count
          absent_count excused_count (round2 attendance_rate)).

(** A query under construction: the number of [join(Session)] clauses it
    carries, and the rows it selects. *)
Module Query.
Record t := mk {
  joins : nat;
  rows : list AttendanceRecord.t }.
End Query.

(** [query.join(Session).filter(P)] *)
Definition join_filter (db : DB) (P : Session.t -> bool) (query : Query.t)
  : Query.t :=
  Query.mk (S (Query.joins query))
           (filter (fun r => join_session db P r = true) (Query.rows query)).

(** [query.all()]: the statement is sent to the database, which refuses a
    statement that joins the table [sessions] more than once without an
    alias; [None] stands for the exception raised, whose text is
    [duplicate_join_error]. *)
Definition query_all (query : Query.t) : option (list AttendanceRecord.t) :=
  if bool_decide (Query.joins query <= 1)%nat then Some (Query.rows query)
  else None.

(** The text of the database error; it depends on the database in use, and
    this constant stands for it. *)
Definition duplicate_join_error : string :=
  "(OperationalError) table name 'sessions' specified more than once".

Section StudentAttendance.

(** [datetime.strptime(s, '%Y-%m-%d').date()] of the Python library;
    [None] stands for its [ValueError]. *)
Variable strptime_date : string -> option date.

(** The filters of the request, applied in the order of the handler, each
    with its own [join(Session)]; the result is the list [query.all()]
    returns, or the response of a filter that does not parse or of a query
    the database refuses. *)
Definition student_query (db : DB) (student_id : Z) (args : student_args)
  : response + list AttendanceRecord.t :=
  let query :=
    Query.mk 0 (filter (fun r => AttendanceRecord.student_id r = student_id)
                       (attendance_records db)) in
  let query :=
    match arg_course_id args with
    | Some course_id =>
        if bool_decide (course_id = 0) then query
        else join_filter db
               (fun s => bool_decide (Session.course_id s = course_id)) query
    | None => query
    end in
  let with_date (arg : option string) (msg : string)
      (keep : date -> Session.t -> bool) (query : Query.t)
    : response + Query.t :=
    match arg with
    | Some text =>
        if bool_decide (text = "") then inr query
        else match strptime_date text with
             | Some d => inr (join_filter db (keep d) query)
             | None => inl (error msg, 400)
             end
    | None => inr query
    end in
  match with_date (arg_date_from args) "Invalid date_from format"
          (fun from_date s => date_ge (Session.session_date s) from_date) query with
  | inl r => inl r
  | inr query =>
      match with_date (arg_date_to args) "Invalid date_to format"
              (fun to_date s => date_le (Session.session_date s) to_date) query with
      | inl r => inl r
      | inr query =>
          let_found attendance_records := query_all query
            else_return inl (error duplicate_join_error, 500) in
          inr attendance_records
      end
  end.

Definition get_student_attendance (db : DB) (current_user_id : identity)
    (student_id : Z) (args : student_args) : response :=
  let_found user := get User.id (users db) (int current_user_id)
    else_return (error "User not found", 404) in
  let permitted : option bool :=
    if bool_decide (User.role user = STUDENT)
    then own_id ← list_id (student_profile db user);
         Some (bool_decide (own_id = student_id))
    else Some true in
  let_found allowed := permitted
    else_return (error no_attribute_id, 500) in
  return_if negb allowed then (error "Unauthorized", 403) otherwise
  let_found student := get Student.id (students db) student_id
    else_return (error "Student not found", 404) in
  match student_query db student_id args with
  | inl r => r
  | inr attendance_records =>
      let_found statistics := student_statistics attendance_records
        else_return (error "division by zero", 500) in
      (student_view
         (StudentView.mk student (to_dict <$> attendance_records) statistics),
       200)
  end.

End StudentAttendance.

(** ** [get_course_attendance] *)

(** One cell of the matrix: the first record of the course for this student
    and this session, or the literal absent entry. *)
Definition course_cell (attendance_records : list AttendanceRecord.t)
    (student : Student.t) (session : Session.t) : CourseView.cell :=
  let attendance_record :=
    first (fun record => AttendanceRecord.student_id record = Student.id student
                         /\ AttendanceRecord.session_id record = Session.id session)
          attendance_records in
  CourseView.mk_cell session
    (match attendance_record with
     | Some record => to_dict record
     | None => absent_dict
     end).

(** The body of the loop over the enrolled students; [None] when computing
    the rate raises. *)
Definition course_row (sessions : list Session.t)
    (attendance_records : list AttendanceRecord.t) (student : Student.t)
  : option CourseView.student_attendance :=
  let cells := course_cell attendance_records student <$> sessions in
  let student_records := CourseView.attendance <$> cells in
  let present_count := count_dict_status ["PRESENT"; "LATE"] student_records in
  let total_sessions := Z.of_nat (length sessions) in
  attendance_rate ← rate present_count total_sessions;
  Some (CourseView.mk_row student cells
          (CourseView.mk_statistics total_sessions
             (count_dict_status ["PRESENT"] student_records)
             (count_dict_status ["LATE"] student_records)
             (count_dict_status ["ABSENT"] student_records)
             (round2 attendance_rate))).

Definition get_course_attendance (db : DB) (current_user_id : identity)
    (course_id : Z) : response :=
  let_found user := get User.id (users db) (int current_user_id)
    else_return (error "Unauthorized", 403) in
  return_if bool_decide (User.role user ∉ [LECTURER; ADMIN])
    then (error "Unauthorized", 403) otherwise
  let_found course := get Course.id (courses db) course_id
    else_return (error "Course not found", 404) in
  return_if bool_decide (User.role user = LECTURER)
            && int_ne_str (Course.lecturer_id course) current_user_id
    then (error "Unauthorized", 403) otherwise
  let sessions :=
    filter (fun s => Session.course_id s = course_id) (sessions db) in
  let enrolled_students := enrolled_students db course_id in
  let attendance_records :=
    filter (fun r => join_session db
                       (fun s => bool_decide (Session.course_id s = course_id)) r = true)
           (attendance_records db) in
  let_found attendance_matrix :=
      mapM (course_row sessions attendance_records) enrolled_students
    else_return (error "division by zero", 500) in
  (course_view
     (CourseView.mk course sessions attendance_matrix
        (CourseView.mk_summary
           (Z.of_nat (length enrolled_students))
           (Z.of_nat (length sessions))
           (Z.of_nat (length attendance_records)))),
   200).

(** ** [mark_attendance] *)

Record mark_data := {
  mark_session_id : option Z;
  mark_student_id : option Z;
  mark_status : option string;
  mark_notes : option string }.

(** [str.upper()] on a string of bytes: the ASCII letters, and the UTF-8
    encoding of U+017F (long s), the one letter outside ASCII whose upper
    case is an ASCII letter of a status name. *)
Definition upper_ascii (c : ascii) : ascii :=
  let n := N_of_ascii c in
  if ((97 <=? n) && (n <=? 122))%N then ascii_of_N (n - 32) else c.

Fixpoint upper (s : string) : string :=
  match s with
  | EmptyString => EmptyString
  | String c rest =>
      match rest with
      | String c' rest' =>
          if ((N_of_ascii c =? 197) && (N_of_ascii c' =? 191))%N
          then String "S" (upper rest')
          else String (upper_ascii c) (upper rest)
      | EmptyString => String (upper_ascii c) EmptyString
      end
  end.

(** The row [existing_record] together with its position in the table, and
    [db.session.commit()] after the assignments to its attributes. *)
Definition find_existing_record (db : DB) (session_id student_id : Z)
  : option (nat * AttendanceRecord.t) :=
  list_find (fun r => AttendanceRecord.session_id r = session_id
                      /\ AttendanceRecord.student_id r = student_id)
            (attendance_records db).

Definition update_attendance (db : DB) (i : nat) (r : AttendanceRecord.t) : DB :=
  mkDB (users db) (students db) (courses db) (enrollments db) (sessions db)
       (<[i := r]> (attendance_records db)).

Definition mark_attendance (db : DB) (current_user_id : identity)
    (data : mark_data) (utcnow : datetime) : response * DB :=
  let_found user := get User.id (users db) (int current_user_id)
    else_return (error "Only lecturers can mark attendance", 403, db) in
  return_if bool_decide (User.role user <> LECTURER)
    then (error "Only lecturers can mark attendance", 403, db) otherwise
  let_found session_id := mark_session_id data
    else_return (error "session_id is required", 400, db) in
  let_found student_id := mark_student_id data
    else_return (error "student_id is required", 400, db) in
  let_found status_text := mark_status data
    else_return (error "status is required", 400, db) in
  let_found session := get Session.id (sessions db) session_id
    else_return (error "Session not found", 404, db) in
  let_found course := session_course db session
    else_return
      (error "'NoneType' object has no attribute 'lecturer_id'", 500, db) in
  return_if bool_decide (Course.lecturer_id course <> int current_user_id)
    then (error "Unauthorized", 403, db) otherwise
  let_found student := get Student.id (students db) student_id
    else_return (error "Student not found", 404, db) in
  let_found status := AttendanceStatus_of_value (upper status_text)
    else_return (error "Invalid status", 400, db) in
  let_found enrollment :=
      active_enrollment db student_id (Session.course_id session)
    else_return (error "Student not enrolled in this course", 403, db) in
  match find_existing_record db session_id student_id with
  | Some (i, existing_record) =>
      let existing_record :=
        AttendanceRecord.mk
          (AttendanceRecord.id existing_record)
          (AttendanceRecord.session_id existing_record)
          (AttendanceRecord.student_id existing_record)
          status utcnow (Some (int current_user_id)) (mark_notes data) in
      (message_attendance "Attendance updated successfully"
         (to_dict existing_record), 200,
       update_attendance db i existing_record)
  | None =>
      let attendance :=
        AttendanceRecord.mk
          (next_id AttendanceRecord.id (attendance_records db))
          session_id student_id status utcnow
          (Some (int current_user_id)) (mark_notes data) in
      (message_attendance "Attendance marked successfully"
         (to_dict attendance), 201,
       add_attendance db attendance)
  end.

(** ** [enroll_student] of [routes/courses.py] *)

Definition find_existing_enrollment (db : DB) (student_id course_id : Z)
  : option (nat * Enrollment.t) :=
  list_find (fun e => Enrollment.student_id e = student_id
                      /\ Enrollment.course_id e = course_id)
            (enrollments db).




(** ** Vocabulary of the statements *)

(** The failures of the check-in and enrollment contracts, as the handlers
    report them. *)
Definition SessionClosed : response :=
  (error "Attendance is not open for this session", 400).

(** The two uniqueness constraints of the schema: [unique_attendance] on
    [(session_id, student_id)] and [unique_enrollment] on
    [(student_id, course_id)]. *)
Definition attendance_key (r : AttendanceRecord.t) : Z * Z :=
  (AttendanceRecord.session_id r, AttendanceRecord.student_id r).
Definition enrollment_key (e : Enrollment.t) : Z * Z :=
  (Enrollment.student_id e, Enrollment.course_id e).

Definition unique_attendance (db : DB) : Prop :=
  NoDup (attendance_key <$> attendance_records db).
Definition unique_enrollment (db : DB) : Prop :=
  NoDup (enrollment_key <$> enrollments db).

(** The records of the table for one (session, student) pair. *)
Definition records_of (db : DB) (session_id student_id : Z)
  : list AttendanceRecord.t :=
  filter (fun r => attendance_key r = (session_id, student_id))
         (attendance_records db).

(** The enrollment rows of the table for one (student, course) pair. *)
Definition enrollments_of (db : DB) (student_id course_id : Z)
  : list Enrollment.t :=
  filter (fun e => enrollment_key e = (student_id, course_id)) (enrollments db).

(** The student has an active enrollment in the course. *)
Definition actively_enrolled (db : DB) (student_id course_id : Z) : Prop :=
  exists e, e ∈ enrollments db
    /\ Enrollment.student_id e = student_id
    /\ Enrollment.course_id e = course_id
    /\ Enrollment.is_active e = true.

#[global] Instance actively_enrolled_dec db student_id course_id :
  Decision (actively_enrolled db student_id course_id).
Proof.
  refine (cast_if (decide (Exists
    (fun e => Enrollment.student_id e = student_id
              /\ Enrollment.course_id e = course_id
              /\ Enrollment.is_active e = true) (enrollments db))));
    unfold actively_enrolled; rewrite Exists_exists in *; naive_solver.
Defined.

(** The students that have an active enrollment in the course. *)
Definition roster (db : DB) (course_id : Z) : list Student.t :=
  filter (fun s => actively_enrolled db (Student.id s) course_id) (students db).

(** The records stored for a session, and those among them that carry one
    of the given statuses. *)
Definition session_records_of (db : DB) (session_id : Z)
  : list AttendanceRecord.t :=
  filter (fun r => AttendanceRecord.session_id r = session_id)
         (attendance_records db).

Definition session_records_with (db : DB) (session_id : Z)
    (s1 s2 : AttendanceStatus) : list AttendanceRecord.t :=
  filter (fun r => AttendanceRecord.session_id r = session_id
                   /\ (AttendanceRecord.status r = s1
                       \/ AttendanceRecord.status r = s2))
         (attendance_records db).

(** The lecturer who owns the course of an existing session asks for the
    session's attendance. *)
Definition owner_request (db : DB) (current_user_id : identity)
    (session : Session.t) : Prop :=
  exists user course,
    get User.id (users db) (int current_user_id) = Some user
    /\ User.role user = LECTURER
    /\ get Session.id (sessions db) (Session.id session) = Some session
    /\ session_course db session = Some course
    /\ Course.lecturer_id course = int current_user_id.

(** [now] is strictly after [start] as a time of day. *)
Definition after (now start : time) : Prop :=
  micros_since_midnight start < micros_since_midnight now.

(** A student user with a profile asks to check in on an existing session. *)
Definition checkin_request (db : DB) (current_user_id : identity)
    (data : checkin_data) (profile : Student.t) (session : Session.t) : Prop :=
  exists user,
    get User.id (users db) (int current_user_id) = Some user
    /\ User.role user = STUDENT
    /\ profile ∈ student_profile db user
    /\ checkin_session_id data = Some (Session.id session)
    /\ Session.id session <> 0
    /\ get Session.id (sessions db) (Session.id session) = Some session.

(** A lecturer marks, with a well-formed body, a student enrolled in the
    course of a session of a course the lecturer owns. *)
Definition mark_request (db : DB) (current_user_id : identity)
    (data : mark_data) (session : Session.t) (student_id : Z)
    (status : AttendanceStatus) : Prop :=
  exists user course student status_text,
    get User.id (users db) (int current_user_id) = Some user
    /\ User.role user = LECTURER
    /\ mark_session_id data = Some (Session.id session)
    /\ mark_student_id data = Some student_id
    /\ mark_status data = Some status_text
    /\ AttendanceStatus_of_value (upper status_text) = Some status
    /\ get Session.id (sessions db) (Session.id session) = Some session
    /\ session_course db session = Some course
    /\ Course.lecturer_id course = int current_user_id
    /\ get Student.id (students db) student_id = Some student
    /\ actively_enrolled db student_id (Session.course_id session).

(** A record after a lecturer's mark: same row, with status, time, marker
    and notes replaced. *)
Definition remarked (r : AttendanceRecord.t) (status : AttendanceStatus)
    (utcnow : datetime) (marker : Z) (notes : option string)
  : AttendanceRecord.t :=
  AttendanceRecord.mk (AttendanceRecord.id r) (AttendanceRecord.session_id r)
    (AttendanceRecord.student_id r) status utcnow (Some marker) notes.


(** The cells of a row that count as attended. *)
Definition attended_cells (row : CourseView.student_attendance) : Z :=
  Z.of_nat (length (filter
    (fun c => dict_status (CourseView.attendance c) = "PRESENT"
              \/ dict_status (CourseView.attendance c) = "LATE")
    (CourseView.sessions row))).

(** The sessions of a course. *)
Definition course_sessions_of (db : DB) (course_id : Z) : list Session.t :=
  filter (fun s => Session.course_id s = course_id) (sessions db).

(** The records of the course: those whose session row belongs to it. *)
Definition course_records_of (db : DB) (course_id : Z)
  : list AttendanceRecord.t :=
  filter (fun r => join_session db
                     (fun s => bool_decide (Session.course_id s = course_id)) r = true)
         (attendance_records db).

(** All the cells of a matrix, row after row. *)
Definition matrix_cells (m : list CourseView.student_attendance)
  : list CourseView.cell :=
  mjoin (CourseView.sessions <$> m).

(** The entries of a student view with a given status. *)
Definition entries_with (name : string) (dicts : list attendance_dict) : Z :=
  Z.of_nat (length (filter (fun d => dict_status d = name) dicts)).

(** A date argument of the student view is usable: it is missing, empty,
    or parses. *)
Definition date_arg_ok (strptime_date : string -> option date)
    (arg : option string) : Prop :=
  match arg with
  | Some text => text = "" \/ is_Some (strptime_date text)
  | None => True
  end.

(** The requester reads the attendance of an existing student: a user
    who is not a student. *)
Definition student_view_request (db : DB) (current_user_id : identity)
    (student_id : Z) : Prop :=
  exists user student,
    get User.id (users db) (int current_user_id) = Some user
    /\ User.role user <> STUDENT
    /\ get Student.id (students db) student_id = Some student.

(** The number of filters of a request for the student view that apply,
    each of which joins the table of sessions: a course other than 0, and
    each date that is given and not empty. *)
Definition applied_filters (args : student_args) : nat :=
  let applies {A : Type} (arg : option A) (empty : A -> bool) : nat :=
    match arg with
    | Some a => if empty a then 0%nat else 1%nat
    | None => 0%nat
    end in
  let course := applies (arg_course_id args) (fun c => bool_decide (c = 0)) in
  let date_from :=
    applies (arg_date_from args) (fun text => bool_decide (text = "")) in
  let date_to :=
    applies (arg_date_to args) (fun text => bool_decide (text = "")) in
  (course + date_from + date_to)%nat.

(** A request for the student view without filters. *)
Definition no_filter : student_args :=
  {| arg_course_id := None; arg_date_from := None; arg_date_to := None |}.

(** ** A sample database *)

Definition nine : time := Time 9 0 0 0.
Definition ten : time := Time 10 0 0 0.
Definition day1 : datetime := DateTime (Date 2024 3 4) (Time 8 55 0 0).
Definition day2 : datetime := DateTime (Date 2024 3 5) (Time 12 0 0 0).

Definition sample_session (id : Z) (d : Z) (open : bool) : Session.t :=
  Session.mk id 100 "Lecture" (Date 2024 3 d) nine ten true open.

Definition sample_record (id session_id student_id : Z)
    (status : AttendanceStatus) : AttendanceRecord.t :=
  AttendanceRecord.mk id session_id student_id status day1 (Some 2) None.

Definition sample_db : DB :=
  mkDB
    [ User.mk 1 "admin@uni" ADMIN true;
      User.mk 2 "lecturer@uni" LECTURER true;
      User.mk 3 "ada@uni" STUDENT true;
      User.mk 4 "bob@uni" STUDENT true;
      User.mk 5 "cy@uni" STUDENT true ]
    [ Student.mk 10 3 "S-010" None None;
      Student.mk 11 4 "S-011" None None;
      Student.mk 12 5 "S-012" None None ]
    [ Course.mk 100 "CS101" "Programming" 2 ACTIVE ]
    [ Enrollment.mk 1 10 100 day1 true;
      Enrollment.mk 2 11 100 day1 true;
      Enrollment.mk 3 12 100 day1 false ]
    [ sample_session 1000 4 true;
      sample_session 1001 5 false;
      sample_session 1002 6 true ]
    [ sample_record 1 1000 10 PRESENT;
      sample_record 2 1001 10 ABSENT;
      sample_record 3 1002 10 EXCUSED;
      sample_record 4 1001 11 LATE ].



(** The lecturer of the sample course marks the first student late on the
    closed session. *)
Definition sample_mark : mark_data :=
  {| mark_session_id := Some 1001; mark_student_id := Some 10;
     mark_status := Some "late"; mark_notes := Some "came at 9:20" |}.

(** ** Integrity constraints of the schema, beyond the two pair constraints *)

(** Primary keys are distinct within a table. *)
Definition attendance_ids_distinct (db : DB) : Prop :=
  NoDup (AttendanceRecord.id <$> attendance_records db).
Definition session_ids_distinct (db : DB) : Prop :=
  NoDup (Session.id <$> sessions db).
Definition student_ids_distinct (db : DB) : Prop :=
  NoDup (Student.id <$> students db).

(** The foreign key [enrollments.student_id]: every enrollment points to a
    student row. *)
Definition enrollments_have_students (db : DB) : Prop :=
  forall e, e ∈ enrollments db ->
    exists s, s ∈ students db /\ Student.id s = Enrollment.student_id e.

(** The tables a handler of attendance leaves alone. *)
Definition same_but_attendance (db db' : DB) : Prop :=
  users db' = users db /\ students db' = students db
  /\ courses db' = courses db /\ enrollments db' = enrollments db
  /\ sessions db' = sessions db.

(** ** [routes/sessions.py]: [get_session], [start_session], [end_session],
       [delete_session]; [routes/courses.py]: [get_course],
       [get_course_students] *)

(** [course.to_dict()] with the two counts it derives from the
    relationships of the course: [len(self.enrollments)], every enrollment
    row of the course, active or not, and [len(self.sessions)]. *)
Record course_dict := {
  dict_course : Course.t;
  dict_total_students : Z;
  dict_total_sessions : Z }.

Definition Course_to_dict (db : DB) (course : Course.t) : course_dict :=
  {| dict_course := course;
     dict_total_students :=
       Z.of_nat (length (filter
         (fun e => Enrollment.course_id e = Course.id course) (enrollments db)));
     dict_total_sessions :=
       Z.of_nat (length (filter
         (fun s => Session.course_id s = Course.id course) (sessions db))) |}.

(** The bodies of these handlers: those of [json], and the ones that carry
    a session or a course. *)
Inductive body :=
| plain (j : json)
| message_session (msg : string) (session : Session.t)
| session_dict (session : Session.t)
| course_body (course : course_dict)
| course_students (course : course_dict)
    (students : list (Student.t * datetime)) (total_students : Z).

(** [Session.query.get(session_id)], with the position of the row. *)
Definition find_session (db : DB) (session_id : Z) : option (nat * Session.t) :=
  list_find (fun s => Session.id s = session_id) (sessions db).

(** [session.attendance_open = b] *)
Definition set_attendance_open (s : Session.t) (b : bool) : Session.t :=
  Session.mk (Session.id s) (Session.course_id s) (Session.session_name s)
    (Session.session_date s) (Session.start_time s) (Session.end_time s)
    (Session.is_active s) b.

Definition update_session_row (db : DB) (i : nat) (s : Session.t) : DB :=
  mkDB (users db) (students db) (courses db) (enrollments db)
       (<[i := s]> (sessions db)) (attendance_records db).

(** [db.session.delete(session); db.session.commit()]: the relationship
    [Session.attendance_records] is declared with
    [cascade='all, delete-orphan'], so the records of the session go with
    it. *)
Definition delete_session_row (db : DB) (i : nat) (s : Session.t) : DB :=
  mkDB (users db) (students db) (courses db) (enrollments db)
       (delete i (sessions db))
       (filter (fun r => AttendanceRecord.session_id r <> Session.id s)
               (attendance_records db)).


(** [start_session] and [end_session] differ in the flag they want, the
    flag they set and their messages. *)
Definition toggle_session (only_lecturers conflict done : string)
    (target : bool) (db : DB) (current_user_id : identity) (session_id : Z)
  : body * Z * DB :=
  let_found user := get User.id (users db) (int current_user_id)
    else_return (plain (error only_lecturers), 403, db) in
  return_if bool_decide (User.role user <> LECTURER)
    then (plain (error only_lecturers), 403, db) otherwise
  match find_session db session_id with
  | None => (plain (error "Session not found"), 404, db)
  | Some (i, session) =>
      let_found course := session_course db session
        else_return
          (plain (error "'NoneType' object has no attribute 'lecturer_id'"),
           500, db) in
      return_if bool_decide (Course.lecturer_id course <> int current_user_id)
        then (plain (error "Unauthorized"), 403, db) otherwise
      return_if bool_decide (Session.attendance_open session = target)
        then (plain (error conflict), 400, db) otherwise
      let session := set_attendance_open session target in
      (message_session done session, 200, update_session_row db i session)
  end.

Definition start_session : DB -> identity -> Z -> body * Z * DB :=
  toggle_session "Only lecturers can start sessions" "Session already started"
    "Session started successfully" true.

Definition end_session : DB -> identity -> Z -> body * Z * DB :=
  toggle_session "Only lecturers can end sessions" "Session not started yet"
    "Session ended successfully" false.

Definition delete_session (db : DB) (current_user_id : identity)
    (session_id : Z) : body * Z * DB :=
  let_found user := get User.id (users db) (int current_user_id)
    else_return (plain (error "Only lecturers can delete sessions"), 403, db) in
  return_if bool_decide (User.role user <> LECTURER)
    then (plain (error "Only lecturers can delete sessions"), 403, db) otherwise
  match find_session db session_id with
  | None => (plain (error "Session not found"), 404, db)
  | Some (i, session) =>
      let_found course := session_course db session
        else_return
          (plain (error "'NoneType' object has no attribute 'lecturer_id'"),
           500, db) in
      return_if bool_decide (Course.lecturer_id course <> int current_user_id)
        then (plain (error "Unauthorized"), 403, db) otherwise
      (plain (message "Session deleted successfully"), 200,
       delete_session_row db i session)
  end.

Definition get_course (db : DB) (current_user_id : identity) (course_id : Z)
  : body * Z :=
  let_found user := get User.id (users db) (int current_user_id)
    else_return (plain (error "User not found"), 404) in
  let_found course := get Course.id (courses db) course_id
    else_return (plain (error "Course not found"), 404) in
  match User.role user with
  | STUDENT =>
      let_found student_id := list_id (student_profile db user)
        else_return (plain (error no_attribute_id), 500) in
      let_found enrollment := active_enrollment db student_id course_id
        else_return (plain (error "Not enrolled in this course"), 403) in
      (course_body (Course_to_dict db course), 200)
  | LECTURER =>
      return_if bool_decide (Course.lecturer_id course <> int current_user_id)
        then (plain (error "Unauthorized"), 403) otherwise
      (course_body (Course_to_dict db course), 200)
  | ADMIN => (course_body (Course_to_dict db course), 200)
  end.

(** The loop of [get_course_students] over the active enrollments of the
    course: [enrollment.student.to_dict()] with the enrollment date;
    [None] when an enrollment has no student row, where [.to_dict()]
    raises. *)
Definition enrolled_student_data (db : DB) (e : Enrollment.t)
  : option (Student.t * datetime) :=
  student ← get Student.id (students db) (Enrollment.student_id e);
  Some (student, Enrollment.enrolled_at e).

Definition get_course_students (db : DB) (current_user_id : identity)
    (course_id : Z) : body * Z :=
  let_found user := get User.id (users db) (int current_user_id)
    else_return (plain (error "Unauthorized"), 403) in
  return_if bool_decide (User.role user ∉ [ADMIN; LECTURER])
    then (plain (error "Unauthorized"), 403) otherwise
  let_found course := get Course.id (courses db) course_id
    else_return (plain (error "Course not found"), 404) in
  return_if bool_decide (User.role user = LECTURER)
            && bool_decide (Course.lecturer_id course <> int current_user_id)
    then (plain (error "Unauthorized"), 403) otherwise
  let enrollments :=
    filter (fun e => Enrollment.course_id e = course_id
                     /\ Enrollment.is_active e = true) (enrollments db) in
  let_found students := mapM (enrolled_student_data db) enrollments
    else_return
      (plain (error "'NoneType' object has no attribute 'to_dict'"), 500) in
  (course_students (Course_to_dict db course) students
     (Z.of_nat (length students)), 200).

(** The sample database after the lecturer has closed the third session,
    and a check-in on that session. *)
Definition closed_db : DB := (end_session sample_db (str 2) 1002).2.


(** The session row a record points to satisfies [P]. *)
Definition session_satisfies (db : DB) (P : Session.t -> Prop)
    (r : AttendanceRecord.t) : Prop :=
  exists s, get Session.id (sessions db) (AttendanceRecord.session_id r) = Some s
            /\ P s.

(** What each argument of the student view asks of a record: a missing
    argument, a course of 0 and an empty date ask nothing. *)
Definition course_filter (db : DB) (arg : option Z) (r : AttendanceRecord.t)
  : Prop :=
  match arg with
  | Some c => c = 0 \/ session_satisfies db (fun s => Session.course_id s = c) r
  | None => True
  end.

Definition date_filter (strptime_date : string -> option date) (db : DB)
    (keep : date -> Session.t -> bool) (arg : option string)
    (r : AttendanceRecord.t) : Prop :=
  match arg with
  | Some text =>
      text = ""
      \/ exists d, strptime_date text = Some d
           /\ session_satisfies db (fun s => keep d s = true) r
  | None => True
  end.

(** A parser that knows one date, and a filtered request for the student
    view. *)
Definition sample_strptime (text : string) : option date :=
  if decide (text = "2024-03-05") then Some (Date 2024 3 5) else None.

Definition sample_filter : student_args :=
  {| arg_course_id := None; arg_date_from := Some "2024-03-05";
     arg_date_to := Some "" |}.

(** The same request, for one course. *)
Definition sample_filters : student_args :=
  {| arg_course_id := Some 100; arg_date_from := Some "2024-03-05";
     arg_date_to := Some "" |}.
(** * Properties *)

(** ** The query interface *)

Section QueryFacts.
Context {A : Type} (P : A -> Prop) `{!forall x, Decision (P x)}.
Implicit Types (tbl : list A) (x : A).

Lemma first_Some tbl x : first P tbl = Some x -> x ∈ tbl /\ P x.
Proof.
  unfold first. destruct (list_find P tbl) as [[i y]|] eqn:E; simpl; [|done].
  intros [= <-]. apply list_find_Some in E as (Hi & HP & _).
  split; [by eapply list_elem_of_lookup_2 | done].
Qed.

Lemma first_None tbl : first P tbl = None <-> forall x, x ∈ tbl -> ~ P x.
Proof.
  unfold first. rewrite fmap_None, list_find_None, Forall_forall. done.
Qed.

Lemma first_is_Some tbl x : x ∈ tbl -> P x -> is_Some (first P tbl).
Proof.
  intros Hx HP. destruct (first P tbl) eqn:E; [by eexists|].
  rewrite first_None in E. by destruct (E x).
Qed.

End QueryFacts.

Lemma next_id_fresh {A} (pk : A -> Z) (tbl : list A) x :
  x ∈ tbl -> pk x < next_id pk tbl.
Proof.
  unfold next_id. induction tbl as [|y tbl IH]; simpl.
  - by intros ?%elem_of_nil.
  - intros [->|Hx]%elem_of_cons; [lia|]. specialize (IH Hx). lia.
Qed.

(** ** Times of day *)

Lemma time_gt_after now start :
  time_valid now -> time_valid start ->
  time_gt now start = true <-> after now start.
Proof.
  unfold time_valid, after, micros_since_midnight, time_gt, time_cmp, lex.
  intros (Hh & Hm & Hs & Hu) (Hh' & Hm' & Hs' & Hu').
  destruct (Z.compare_spec (hour now) (hour start));
    destruct (Z.compare_spec (minute now) (minute start));
    destruct (Z.compare_spec (second now) (second start));
    destruct (Z.compare_spec (microsecond now) (microsecond start));
    split; intros; try done; try lia.
Qed.

(** ** Lookups of enrollments and records *)

Lemma active_enrollment_Some db student_id course_id :
  actively_enrolled db student_id course_id ->
  is_Some (active_enrollment db student_id course_id).
Proof.
  intros (e & He & H1 & H2 & H3). unfold active_enrollment.
  by apply first_is_Some with e.
Qed.

Lemma active_enrollment_None db student_id course_id :
  ~ actively_enrolled db student_id course_id ->
  active_enrollment db student_id course_id = None.
Proof.
  intros Hno. unfold active_enrollment. apply first_None.
  intros e He (H1 & H2 & H3). apply Hno. by exists e.
Qed.

Lemma attendance_key_eq r session_id student_id :
  attendance_key r = (session_id, student_id) <->
  AttendanceRecord.session_id r = session_id
  /\ AttendanceRecord.student_id r = student_id.
Proof. unfold attendance_key. split; [by intros [= -> ->] | by intros [-> ->]]. Qed.

Lemma find_existing_record_None db session_id student_id :
  find_existing_record db session_id student_id = None <->
  records_of db session_id student_id = [].
Proof.
  unfold find_existing_record, records_of. rewrite list_find_None, Forall_forall.
  split.
  - intros Hno. destruct (filter _ _) as [|r l] eqn:E; [done|].
    assert (Hr : r ∈ filter (fun r => attendance_key r = (session_id, student_id))
                        (attendance_records db)) by (rewrite E; left).
    apply list_elem_of_filter in Hr as [Hk Hr]. apply attendance_key_eq in Hk.
    by destruct (Hno r Hr).
  - intros Hnil r Hr Hk. apply attendance_key_eq in Hk.
    by apply (filter_nil_not_elem_of _ _ r Hnil).
Qed.

Lemma existing_record_None db session_id student_id :
  records_of db session_id student_id = [] ->
  existing_record db session_id student_id = None.
Proof.
  intros H%find_existing_record_None. unfold existing_record, first.
  unfold find_existing_record in H. by rewrite H.
Qed.

Lemma find_existing_record_Some db session_id student_id i r :
  find_existing_record db session_id student_id = Some (i, r) ->
  attendance_records db !! i = Some r
  /\ attendance_key r = (session_id, student_id).
Proof.
  unfold find_existing_record. intros (Hi & HP & _)%list_find_Some.
  by rewrite attendance_key_eq.
Qed.

Lemma existing_record_Some db session_id student_id r :
  r ∈ records_of db session_id student_id ->
  exists i r', find_existing_record db session_id student_id = Some (i, r')
    /\ existing_record db session_id student_id = Some r'
    /\ r' ∈ records_of db session_id student_id.
Proof.
  intros Hr. destruct (find_existing_record db session_id student_id)
    as [[i r']|] eqn:E.
  - exists i, r'. split; [done|]. split.
    + unfold existing_record, first. unfold find_existing_record in E.
      by rewrite E.
    + apply find_existing_record_Some in E as [Hi Hk].
      apply list_elem_of_filter. split; [done|].
      by eapply list_elem_of_lookup_2.
  - apply find_existing_record_None in E. rewrite E in Hr.
    by apply elem_of_nil in Hr.
Qed.

(** The check-in outcome depends on the clock only through its time of
    day. *)
Lemma checkin_time_of_day db current_user_id data now now' utcnow :
  time_of now = time_of now' ->
  checkin db current_user_id data now utcnow
  = checkin db current_user_id data now' utcnow.
Proof. intros H. unfold checkin. by rewrite H. Qed.

(** A list that holds an element is not false. *)
Lemma list_not_elem {A} (x : A) (l : list A) : x ∈ l -> list_not l = false.
Proof. destruct l; [by intros ?%elem_of_nil | done]. Qed.

(** The path of [checkin] for a student with a profile on an existing
    session: the gate is consulted, and on an open session the handler
    then reads [user.student_profile.id], which raises. *)
Lemma checkin_guards db current_user_id data profile session now utcnow :
  checkin_request db current_user_id data profile session ->
  checkin db current_user_id data now utcnow
  = (if negb (Session.attendance_open session)
     then (SessionClosed, db)
     else (error no_attribute_id, 500, db)).
Proof.
  intros (user & Hu & Hrole & Hp & Hsid & Hnz & Hs).
  unfold checkin. rewrite Hu, Hsid, Hs, (list_not_elem _ _ Hp). simpl.
  rewrite !bool_decide_eq_false_2 by (try done; by rewrite Hrole; intros []).
  by destruct (negb _).
Qed.


(** [checkin] never answers 201. *)
Lemma checkin_never_created db current_user_id data now utcnow :
  (checkin db current_user_id data now utcnow).1.2 <> 201.
Proof.
  unfold checkin.
  destruct (get User.id _ _); [|done]. case_bool_decide; [done|].
  destruct (list_not _); [done|].
  destruct (checkin_session_id data) as [sid|]; [|done].
  case_bool_decide; [done|].
  destruct (get Session.id _ _) as [session|]; [|done].
  by destruct (negb _).
Qed.

(** A check-in that answers 201 has stored one new record, for a pair that
    had none. *)
Lemma checkin_created db current_user_id data now utcnow body db' :
  checkin db current_user_id data now utcnow = (body, 201, db') ->
  exists r,
    body = message_attendance "Checked in successfully" (to_dict r)
    /\ db' = add_attendance db r
    /\ records_of db (AttendanceRecord.session_id r)
         (AttendanceRecord.student_id r) = [].
Proof.
  intros H.
  destruct (checkin_never_created db current_user_id data now utcnow).
  by rewrite H.
Qed.

(** ** Student self-check-in *)


(** Membership in a list given by its elements. *)
Ltac elem := repeat first [ apply list_elem_of_here | apply list_elem_of_further ].




(** ** The lecturer's session view *)

Lemma enrolled_students_roster db course_id :
  enrolled_students db course_id = roster db course_id.
Proof.
  unfold enrolled_students, roster. apply list_filter_iff. intros s.
  unfold actively_enrolled. rewrite Exists_exists. naive_solver.
Qed.

Lemma status_in_pair (st s1 s2 : AttendanceStatus) :
  st ∈ [s1; s2] <-> st = s1 \/ st = s2.
Proof. rewrite !elem_of_cons, elem_of_nil. tauto. Qed.

Lemma count_status_session db session_id s1 s2 :
  count_status [s1; s2] (session_records_of db session_id)
  = Z.of_nat (length (session_records_with db session_id s1 s2)).
Proof.
  unfold count_status, session_records_of, session_records_with.
  rewrite list_filter_filter. do 2 f_equal. apply list_filter_iff.
  intros r. rewrite status_in_pair. tauto.
Qed.

(** Every record carries exactly one of the four statuses. *)
Lemma session_records_split db session_id :
  length (session_records_of db session_id)
  = (length (session_records_with db session_id PRESENT LATE)
     + length (session_records_with db session_id ABSENT EXCUSED))%nat.
Proof.
  unfold session_records_of, session_records_with.
  induction (attendance_records db) as [|r l IH]; [done|].
  rewrite !filter_cons. destruct (decide (AttendanceRecord.session_id r = session_id)) as [Hs|Hs].
  - destruct (AttendanceRecord.status r) eqn:Hst;
      repeat (case_decide; try (intuition congruence)); simpl; lia.
  - repeat (case_decide; try tauto).
Qed.

Lemma session_entry_absent records student :
  (forall r, r ∈ records ->
     AttendanceRecord.student_id r <> Student.id student) ->
  session_entry records student = SessionView.mk_entry student absent_dict.
Proof.
  intros Hno. unfold session_entry.
  by rewrite (proj2 (first_None _ records) Hno).
Qed.

Lemma owner_request_view db current_user_id session :
  owner_request db current_user_id session ->
  get_session_attendance db current_user_id (Session.id session)
  = (session_view
       (SessionView.mk session
          (session_entry (session_records_of db (Session.id session))
             <$> roster db (Session.course_id session))
          (Z.of_nat (length (roster db (Session.course_id session))))
          (Z.of_nat (length (session_records_with db (Session.id session)
                               PRESENT LATE)))
          (Z.of_nat (length (roster db (Session.course_id session)))
           - Z.of_nat (length (session_records_of db (Session.id session))))),
     200).
Proof.
  intros (user & course & Hu & Hrole & Hs & Hc & Hown).
  unfold get_session_attendance. rewrite Hu, Hs, Hrole, Hc.
  rewrite bool_decide_eq_false_2 by (intros H; by apply H).
  rewrite enrolled_students_roster.
  fold (session_records_of db (Session.id session)).
  by rewrite count_status_session.
Qed.

(** C5: for a session viewed by the lecturer who owns its course, the
    response is the 200 summary in which [total_enrolled] is the number of
    students with an active enrollment in the session's course,
    [total_present] the number of the session's records with status PRESENT
    or LATE, [total_absent] is [total_enrolled] minus the number of records
    found for the session; the entries are those of the enrolled students,
    in order, and an enrolled student without a record of the session has
    the synthesized ABSENT entry. *)
Theorem session_view_counts db current_user_id session :
  owner_request db current_user_id session ->
  exists v,
    get_session_attendance db current_user_id (Session.id session)
    = (session_view v, 200)
    /\ SessionView.total_enrolled v
       = Z.of_nat (length (roster db (Session.course_id session)))
    /\ SessionView.total_present v
       = Z.of_nat (length (session_records_with db (Session.id session)
                             PRESENT LATE))
    /\ SessionView.total_absent v
       = SessionView.total_enrolled v
         - Z.of_nat (length (session_records_of db (Session.id session)))
    /\ SessionView.student <$> SessionView.attendance_records v
       = roster db (Session.course_id session)
    /\ (forall student,
          student ∈ students db ->
          actively_enrolled db (Student.id student) (Session.course_id session) ->
          (forall r, r ∈ attendance_records db ->
             AttendanceRecord.session_id r = Session.id session ->
             AttendanceRecord.student_id r <> Student.id student) ->
          SessionView.mk_entry student absent_dict
            ∈ SessionView.attendance_records v
          /\ dict_status absent_dict = "ABSENT"
          /\ dict_marked_at absent_dict = None).
Proof.
  intros Hreq. eexists. split; [by apply owner_request_view|]. simpl.
  split; [done|]. split; [done|]. split; [done|]. split.
  - rewrite <-list_fmap_compose.
    induction (roster _ _) as [|s l IH]; [done|]. csimpl. by f_equal.
  - intros student Hin Henr Hno. split; [|done].
    rewrite <-(session_entry_absent (session_records_of db (Session.id session))).
    + apply list_elem_of_fmap_2, list_elem_of_filter. done.
    + intros r [Hs Hr]%list_elem_of_filter. by apply Hno.
Qed.

Lemma session_view_counts_witness :
  exists v,
    get_session_attendance sample_db (str 2) 1001 = (session_view v, 200)
    /\ SessionView.total_enrolled v = 2
    /\ SessionView.total_present v = 1
    /\ SessionView.total_absent v = 0.
Proof.
  destruct (session_view_counts sample_db (str 2) (sample_session 1001 5 false))
    as (v & Hv & He & Hp & Ha & _).
  - exists (User.mk 2 "lecturer@uni" LECTURER true),
           (Course.mk 100 "CS101" "Programming" 2 ACTIVE).
    repeat split; reflexivity.
  - exists v. split; [exact Hv|]. rewrite Ha, He, Hp. repeat split; reflexivity.
Defined.

(** C10: in the lecturer's session view a record of the session with
    status ABSENT or EXCUSED is counted neither in [total_present] nor in
    [total_absent]: the two add up to [total_enrolled] minus the number of
    such records, so their sum is at most [total_enrolled], and strictly
    less as soon as the session has one explicit ABSENT or EXCUSED
    record. *)
Theorem session_view_accounting_gap db current_user_id session :
  owner_request db current_user_id session ->
  exists v,
    get_session_attendance db current_user_id (Session.id session)
    = (session_view v, 200)
    /\ SessionView.total_present v + SessionView.total_absent v
       = SessionView.total_enrolled v
         - Z.of_nat (length (session_records_with db (Session.id session)
                               ABSENT EXCUSED))
    /\ SessionView.total_present v + SessionView.total_absent v
       <= SessionView.total_enrolled v
    /\ ((exists r, r ∈ attendance_records db
           /\ AttendanceRecord.session_id r = Session.id session
           /\ (AttendanceRecord.status r = ABSENT
               \/ AttendanceRecord.status r = EXCUSED)) ->
        SessionView.total_present v + SessionView.total_absent v
        < SessionView.total_enrolled v).
Proof.
  intros Hreq. eexists. split; [by apply owner_request_view|]. simpl.
  pose proof (session_records_split db (Session.id session)) as Hsplit.
  split; [lia|]. split; [lia|].
  intros (r & Hr & Hs & Hst).
  assert (Hin : r ∈ session_records_with db (Session.id session) ABSENT EXCUSED)
    by (apply list_elem_of_filter; done).
  destruct (session_records_with db (Session.id session) ABSENT EXCUSED);
    [by apply elem_of_nil in Hin | simpl in *; lia].
Qed.

Lemma session_view_accounting_gap_witness :
  exists v,
    get_session_attendance sample_db (str 2) 1001 = (session_view v, 200)
    /\ SessionView.total_present v + SessionView.total_absent v
       < SessionView.total_enrolled v.
Proof.
  destruct (session_view_accounting_gap sample_db (str 2)
              (sample_session 1001 5 false)) as (v & Hv & _ & _ & Hlt).
  - exists (User.mk 2 "lecturer@uni" LECTURER true),
           (Course.mk 100 "CS101" "Programming" 2 ACTIVE).
    repeat split; reflexivity.
  - exists v. split; [exact Hv|]. apply Hlt.
    exists (sample_record 2 1001 10 ABSENT).
    split; [elem|]. split; [reflexivity | left; reflexivity].
Defined.

(** ** The course matrix *)

Lemma truediv_is_Some a b : b <> 0 -> is_Some (truediv a b).
Proof. intros Hb. unfold truediv. by rewrite decide_False. Qed.

(** The rate never raises: the division is guarded by [total > 0]. *)
Lemma rate_is_Some count total : is_Some (rate count total).
Proof.
  unfold rate. destruct (Z.ltb_spec 0 total) as [Hpos|Hle]; [|done].
  destruct (truediv_is_Some count total) as [q ->]; [lia|]. done.
Qed.

Lemma rate_zero_total count : rate count 0 = Some (PyInt 0).
Proof. done. Qed.

Lemma rate_pos count total :
  0 < total ->
  exists q, truediv count total = Some q
    /\ rate count total = Some (PyFloat (float_mul_int q 100)).
Proof.
  intros Hpos. destruct (truediv_is_Some count total) as [q Hq]; [lia|].
  exists q. split; [done|]. unfold rate. rewrite Hq.
  by destruct (Z.ltb_spec 0 total); [|lia].
Qed.

(** The float model on the values of the running example: [1/3*100] is
    [33.33333333333333], which rounds to [33.33]; [2/3*100] rounds to
    [66.67]; [1/8*100] is [12.5] and stays. *)
Example rate_third :
  rate 1 3 = Some (PyFloat (S754_finite false 4691249611844266 (-47)))
  /\ round2 <$> rate 1 3
     = Some (PyFloat (S754_finite false 4690780486883082 (-47))).
Proof. split; vm_compute; reflexivity. Qed.

Example rate_two_thirds :
  round2 <$> rate 2 3 = Some (PyFloat (S754_finite false 4691484174324859 (-46))).
Proof. vm_compute. reflexivity. Qed.

Example rate_eighth :
  rate 1 8 = Some (PyFloat (S754_finite false 7036874417766400 (-49)))
  /\ round2 <$> rate 1 8 = rate 1 8.
Proof. split; vm_compute; reflexivity. Qed.

Lemma get_unique {A} (pk : A -> Z) (tbl : list A) x :
  NoDup (pk <$> tbl) -> x ∈ tbl -> get pk tbl (pk x) = Some x.
Proof.
  intros Hnd Hx. destruct (first_is_Some (fun y => pk y = pk x) tbl x Hx eq_refl)
    as [y Hy].
  unfold get. rewrite Hy. f_equal.
  apply first_Some in Hy as [Hy Hpk].
  apply list_elem_of_lookup_1 in Hx as [i Hi].
  apply list_elem_of_lookup_1 in Hy as [j Hj].
  assert (i = j) as ->; [|congruence].
  eapply NoDup_lookup; [done| |]; rewrite list_lookup_fmap.
  - by rewrite Hi.
  - rewrite Hj. simpl. by rewrite Hpk.
Qed.

Lemma count_dict_status_cells names (cells : list CourseView.cell) :
  count_dict_status names (CourseView.attendance <$> cells)
  = Z.of_nat (length (filter
      (fun c => dict_status (CourseView.attendance c) ∈ names) cells)).
Proof.
  unfold count_dict_status. f_equal.
  induction cells as [|c cells IH]; [done|]. csimpl.
  rewrite !filter_cons. case_decide; simpl; by rewrite IH.
Qed.

Lemma attended_cells_count row :
  count_dict_status ["PRESENT"; "LATE"]
    (CourseView.attendance <$> CourseView.sessions row)
  = attended_cells row.
Proof.
  rewrite count_dict_status_cells. unfold attended_cells. do 2 f_equal.
  apply list_filter_iff. intros c. rewrite !elem_of_cons, elem_of_nil.
  tauto.
Qed.

(** What one iteration of the loop over the students builds. *)
Lemma course_row_Some sessions records student row :
  course_row sessions records student = Some row ->
  CourseView.student row = student
  /\ CourseView.sessions row = course_cell records student <$> sessions
  /\ CourseView.total_sessions (CourseView.stats row)
     = Z.of_nat (length sessions)
  /\ Some (CourseView.attendance_rate (CourseView.stats row))
     = round2 <$> rate (attended_cells row) (Z.of_nat (length sessions)).
Proof.
  unfold course_row. intros Hrow.
  destruct (rate _ _) as [x|] eqn:Hrate; [|done]. simpl in Hrow.
  injection Hrow as <-. simpl. repeat split.
  unfold attended_cells. simpl.
  pose proof (attended_cells_count
    (CourseView.mk_row student (course_cell records student <$> sessions)
       (CourseView.mk_statistics 0 0 0 0 x))) as Hc.
  unfold attended_cells in Hc. simpl in Hc. rewrite <-Hc, Hrate. done.
Qed.

Lemma course_rows_Some sessions records (roster : list Student.t) rows :
  mapM (course_row sessions records) roster = Some rows ->
  CourseView.student <$> rows = roster
  /\ forall row, row ∈ rows ->
       course_row sessions records (CourseView.student row) = Some row.
Proof.
  intros H%mapM_Some. induction H as [|s row l k Hrow _ [IH1 IH2]].
  - split; [done|]. by intros row ?%elem_of_nil.
  - pose proof (course_row_Some _ _ _ _ Hrow) as (Hs & _).
    split; [csimpl; by rewrite Hs, IH1|].
    intros row' [->|Hin]%elem_of_cons; [by rewrite Hs | by apply IH2].
Qed.

Lemma course_row_is_Some sessions records student :
  is_Some (course_row sessions records student).
Proof.
  unfold course_row.
  by destruct (rate_is_Some
    (count_dict_status ["PRESENT"; "LATE"]
       (CourseView.attendance <$> (course_cell records student <$> sessions)))
    (Z.of_nat (length sessions))) as [x ->].
Qed.

(** The shape of every answer that carries a matrix. *)
Lemma course_view_inv db current_user_id course_id v :
  get_course_attendance db current_user_id course_id = (course_view v, 200) ->
  CourseView.course_sessions v = course_sessions_of db course_id
  /\ mapM (course_row (course_sessions_of db course_id)
             (course_records_of db course_id)) (roster db course_id)
     = Some (CourseView.attendance_matrix v).
Proof.
  unfold get_course_attendance. rewrite enrolled_students_roster.
  fold (course_sessions_of db course_id) (course_records_of db course_id).
  destruct (get User.id _ _); [|done]. case_bool_decide; [done|].
  destruct (get Course.id _ _); [|done]. destruct (_ && _); [done|].
  destruct (mapM _ _); [|done]. by intros [= <-].
Qed.

(** An administrator always gets the matrix of an existing course. *)
Lemma course_view_admin db current_user_id course_id user course :
  get User.id (users db) (int current_user_id) = Some user ->
  User.role user = ADMIN ->
  get Course.id (courses db) course_id = Some course ->
  exists v,
    get_course_attendance db current_user_id course_id = (course_view v, 200).
Proof.
  intros Hu Hrole Hc. unfold get_course_attendance. rewrite Hu, Hrole, Hc.
  rewrite bool_decide_eq_false_2
    by (intros Hn; apply Hn; apply list_elem_of_further, list_elem_of_here).
  simpl. destruct (mapM _ _) as [rows|] eqn:Hrows; [by eexists|].
  apply mapM_None, Exists_exists in Hrows as (s & _ & Hs).
  destruct (course_row_is_Some
    (filter (fun s => Session.course_id s = course_id) (sessions db))
    (filter (fun r => join_session db
               (fun s => bool_decide (Session.course_id s = course_id)) r = true)
            (attendance_records db)) s) as [row Hrow].
  congruence.
Qed.

(** A lecturer never gets it: the ownership test compares the integer
    column with the identity string. *)
Lemma course_view_lecturer db current_user_id course_id user :
  get User.id (users db) (int current_user_id) = Some user ->
  User.role user = LECTURER ->
  (get_course_attendance db current_user_id course_id).2 <> 200.
Proof.
  intros Hu Hrole. unfold get_course_attendance. rewrite Hu, Hrole.
  rewrite bool_decide_eq_false_2
    by (intros Hn; apply Hn; apply list_elem_of_here).
  destruct (get Course.id _ _); [|done].
  by rewrite bool_decide_eq_true_2.
Qed.

Lemma length_matrix_cells (rows : list CourseView.student_attendance) n :
  (forall row, row ∈ rows -> length (CourseView.sessions row) = n) ->
  length (matrix_cells rows) = (length rows * n)%nat.
Proof.
  unfold matrix_cells. induction rows as [|row rows IH]; intros Hn; [done|].
  csimpl. rewrite length_app, Hn by left. rewrite IH; [lia|].
  intros row' Hin. apply Hn. by right.
Qed.

(** The cell of a student and a session is the first record of the course
    for the pair, or the absent entry when the course has no such record. *)
Lemma course_cell_cases records student session :
  (exists r, CourseView.attendance (course_cell records student session)
             = record_dict r
     /\ r ∈ records
     /\ AttendanceRecord.student_id r = Student.id student
     /\ AttendanceRecord.session_id r = Session.id session)
  \/ (CourseView.attendance (course_cell records student session) = absent_dict
      /\ forall r, r ∈ records ->
           ~ (AttendanceRecord.student_id r = Student.id student
              /\ AttendanceRecord.session_id r = Session.id session)).
Proof.
  unfold course_cell.
  destruct (first _ records) as [r|] eqn:E; simpl.
  - left. exists r. apply first_Some in E as (Hin & H1 & H2). done.
  - right. split; [done|]. by apply (proj1 (first_None _ records)).
Qed.

Lemma course_records_of_elem db course_id r session :
  NoDup (Session.id <$> sessions db) ->
  r ∈ attendance_records db ->
  session ∈ course_sessions_of db course_id ->
  AttendanceRecord.session_id r = Session.id session ->
  r ∈ course_records_of db course_id.
Proof.
  intros Hnd Hr [Hc Hs]%list_elem_of_filter Hid.
  apply list_elem_of_filter. split; [|done].
  unfold join_session. rewrite Hid, (get_unique _ _ _ Hnd Hs).
  by apply bool_decide_eq_true_2.
Qed.

(** C6: the matrix of a course has one row per enrolled student, in roster
    order, and each row one cell per session of the course, in session
    order: |S| x |L| cells in all. Each cell holds either the record stored
    for its (student, session) pair or the synthesized entry with status
    ABSENT and no [marked_at]; with session keys unique, the synthesized
    entry stands only where the table has no record for the pair. An
    administrator gets this answer for every existing course. *)
Theorem course_matrix_shape db current_user_id course_id :
  (forall user course,
     get User.id (users db) (int current_user_id) = Some user ->
     User.role user = ADMIN ->
     get Course.id (courses db) course_id = Some course ->
     exists v,
       get_course_attendance db current_user_id course_id
       = (course_view v, 200))
  /\ forall v,
       get_course_attendance db current_user_id course_id
       = (course_view v, 200) ->
       let S := roster db course_id in
       let L := course_sessions_of db course_id in
       let M := CourseView.attendance_matrix v in
       CourseView.student <$> M = S
       /\ (forall row, row ∈ M ->
             CourseView.session <$> CourseView.sessions row = L)
       /\ length (matrix_cells M) = (length S * length L)%nat
       /\ forall row cell,
            row ∈ M -> cell ∈ CourseView.sessions row ->
            (exists r,
               CourseView.attendance cell = to_dict r
               /\ r ∈ attendance_records db
               /\ AttendanceRecord.student_id r
                  = Student.id (CourseView.student row)
               /\ AttendanceRecord.session_id r
                  = Session.id (CourseView.session cell))
            \/ (CourseView.attendance cell = absent_dict
                /\ dict_status (CourseView.attendance cell) = "ABSENT"
                /\ dict_marked_at (CourseView.attendance cell) = None
                /\ (NoDup (Session.id <$> sessions db) ->
                    forall r, r ∈ attendance_records db ->
                      ~ (AttendanceRecord.student_id r
                         = Student.id (CourseView.student row)
                         /\ AttendanceRecord.session_id r
                            = Session.id (CourseView.session cell)))).
Proof.
  split; [intros user course; apply course_view_admin|].
  intros v [_ Hrows]%course_view_inv S L M.
  apply course_rows_Some in Hrows as [Hstudents Hrow]. fold M in Hstudents, Hrow.
  assert (Hcells : forall row, row ∈ M ->
            CourseView.sessions row
            = course_cell (course_records_of db course_id)
                (CourseView.student row) <$> L).
  { intros row Hin. by apply Hrow, course_row_Some in Hin as (_ & ? & _). }
  split; [done|]. split; [|split].
  - intros row Hin. rewrite (Hcells row Hin), <-list_fmap_compose.
    clear. induction L as [|x L IH]; [done|]. csimpl. by f_equal.
  - rewrite (length_matrix_cells M (length L)).
    + subst S. by rewrite <-Hstudents, length_fmap.
    + intros row Hin. by rewrite (Hcells row Hin), length_fmap.
  - intros row cell Hin Hcell. rewrite (Hcells row Hin) in Hcell.
    apply list_elem_of_fmap in Hcell as (x & -> & Hx).
    destruct (course_cell_cases (course_records_of db course_id)
                (CourseView.student row) x) as [(r & Hr & Hmem & H1 & H2)|[Habs Hno]].
    + left. exists r. split; [done|].
      apply list_elem_of_filter in Hmem as [_ Hmem]. done.
    + right. rewrite Habs. repeat split.
      intros Hnd r Hr [H1 H2]. apply (Hno r); [|done].
      by apply course_records_of_elem with x.
Qed.

Lemma course_matrix_shape_witness :
  exists v,
    get_course_attendance sample_db (str 1) 100 = (course_view v, 200)
    /\ length (matrix_cells (CourseView.attendance_matrix v)) = 6%nat.
Proof.
  destruct (course_matrix_shape sample_db (str 1) 100) as [Hadmin Hshape].
  destruct (Hadmin (User.mk 1 "admin@uni" ADMIN true)
              (Course.mk 100 "CS101" "Programming" 2 ACTIVE))
    as [v Hv]; [reflexivity..|].
  exists v. split; [exact Hv|].
  destruct (Hshape v Hv) as (_ & _ & Hlen & _). exact Hlen.
Defined.

(** C3, as stated, fails: the reported rate is not the quotient times 100
    itself. In the sample course (three sessions) the first student has one
    attended cell; the report carries 33.33, not 1/3*100 =
    33.33333333333333. *)
Lemma course_matrix_rate_unrounded_counterexample :
  exists v row,
    get_course_attendance sample_db (str 1) 100 = (course_view v, 200)
    /\ row ∈ CourseView.attendance_matrix v
    /\ attended_cells row = 1
    /\ Z.of_nat (length (course_sessions_of sample_db 100)) = 3
    /\ rate 1 3 = Some (PyFloat (S754_finite false 4691249611844266 (-47)))
    /\ CourseView.attendance_rate (CourseView.stats row)
       = PyFloat (S754_finite false 4690780486883082 (-47))
    /\ Some (CourseView.attendance_rate (CourseView.stats row))
       <> rate (attended_cells row)
            (Z.of_nat (length (course_sessions_of sample_db 100))).
Proof.
  eexists. eexists. split; [vm_compute; reflexivity|].
  split; [apply list_elem_of_here|].
  repeat split; try (vm_compute; reflexivity).
  vm_compute. discriminate.
Qed.

(** C3, amended: for every row of the course matrix the reported
    [attendance_rate] is [round(count / total * 100, 2)], where [count] is
    the number of cells of the row with status PRESENT or LATE and [total]
    the number of sessions of the course, with or without record; it is
    the integer 0 when the course has no session. *)
Theorem course_matrix_rate db current_user_id course_id v row :
  get_course_attendance db current_user_id course_id = (course_view v, 200) ->
  row ∈ CourseView.attendance_matrix v ->
  let total := Z.of_nat (length (course_sessions_of db course_id)) in
  Some (CourseView.attendance_rate (CourseView.stats row))
  = round2 <$> rate (attended_cells row) total
  /\ CourseView.total_sessions (CourseView.stats row) = total
  /\ length (CourseView.sessions row) = length (course_sessions_of db course_id)
  /\ (total = 0 ->
      CourseView.attendance_rate (CourseView.stats row) = PyInt 0)
  /\ (0 < total ->
      exists q, truediv (attended_cells row) total = Some q
        /\ CourseView.attendance_rate (CourseView.stats row)
           = PyFloat (float_round2 (float_mul_int q 100))).
Proof.
  intros [_ Hrows]%course_view_inv Hin total.
  apply course_rows_Some in Hrows as [_ Hrow].
  apply Hrow, course_row_Some in Hin as (_ & Hcells & Htotal & Hrate).
  fold total in Htotal, Hrate.
  split; [done|]. split; [done|].
  split; [by rewrite Hcells, length_fmap|]. split.
  - intros H0. rewrite H0, rate_zero_total in Hrate. by injection Hrate.
  - intros Hpos. destruct (rate_pos (attended_cells row) total Hpos)
      as (q & Hq & Hr).
    exists q. split; [done|]. rewrite Hr in Hrate. by injection Hrate.
Qed.

Lemma course_matrix_rate_witness :
  exists v row,
    get_course_attendance sample_db (str 1) 100 = (course_view v, 200)
    /\ row ∈ CourseView.attendance_matrix v
    /\ Some (CourseView.attendance_rate (CourseView.stats row))
       = round2 <$> rate (attended_cells row) 3.
Proof.
  eexists. eexists. split; [vm_compute; reflexivity|].
  split; [apply list_elem_of_here|].
  refine (proj1 (course_matrix_rate sample_db (str 1) 100 _ _ _ _)).
  - vm_compute. reflexivity.
  - apply list_elem_of_here.
Defined.

(** ** The student view *)

Lemma value_inj s1 s2 : value s1 = value s2 -> s1 = s2.
Proof. by destruct s1, s2. Qed.

Lemma count_status_entries st (records : list AttendanceRecord.t) :
  count_status [st] records = entries_with (value st) (to_dict <$> records).
Proof.
  unfold count_status, entries_with. f_equal.
  induction records as [|r l IH]; [done|]. csimpl. rewrite !filter_cons.
  destruct (decide (AttendanceRecord.status r ∈ [st])) as [Hin|Hnin];
    destruct (decide (dict_status (to_dict r) = value st)) as [Hd|Hd];
    simpl in *; rewrite ?IH; try done.
  - apply list_elem_of_singleton in Hin. by rewrite Hin in Hd.
  - apply value_inj in Hd. destruct Hnin. rewrite Hd. apply list_elem_of_here.
Qed.

(** The statistics never raise: no division by zero. *)
Lemma student_statistics_is_Some records : is_Some (student_statistics records).
Proof.
  unfold student_statistics.
  by destruct (rate_is_Some
    (count_status [PRESENT] records + count_status [LATE] records)
    (Z.of_nat (length records))) as [x ->].
Qed.

Lemma student_statistics_Some records stats :
  student_statistics records = Some stats ->
  let dicts := to_dict <$> records in
  StudentView.total_sessions stats = Z.of_nat (length dicts)
  /\ StudentView.present stats = entries_with "PRESENT" dicts
  /\ StudentView.late stats = entries_with "LATE" dicts
  /\ StudentView.absent stats = entries_with "ABSENT" dicts
  /\ StudentView.excused stats = entries_with "EXCUSED" dicts
  /\ Some (StudentView.attendance_rate stats)
     = round2 <$> rate (entries_with "PRESENT" dicts + entries_with "LATE" dicts)
                       (Z.of_nat (length dicts)).
Proof.
  unfold student_statistics. intros H. cbv zeta.
  rewrite length_fmap.
  rewrite <-(count_status_entries PRESENT), <-(count_status_entries LATE),
    <-(count_status_entries ABSENT), <-(count_status_entries EXCUSED).
  destruct (rate _ _) as [x|]; [|done]. simpl in H.
  injection H as <-. done.
Qed.

Section StudentViewFacts.
Variable strptime_date : string -> option date.

(** A filter that does not parse answers 400, and a query the database
    refuses answers 500 with the text of its error. *)
Lemma student_query_inl db student_id args r :
  student_query strptime_date db student_id args = inl r ->
  (exists msg, r = (error msg, 400)) \/ r = (error duplicate_join_error, 500).
Proof.
  unfold student_query.
  destruct (arg_date_from args) as [from|], (arg_date_to args) as [to|];
    repeat (case_bool_decide || destruct (strptime_date _));
    try destruct (query_all _);
    intros [= <-] || done; (by right) || (left; by eexists).
Qed.

Lemma student_view_inv db current_user_id student_id args v :
  get_student_attendance strptime_date db current_user_id student_id args
  = (student_view v, 200) ->
  exists records,
    student_query strptime_date db student_id args = inr records
    /\ StudentView.attendance_records v = to_dict <$> records
    /\ student_statistics records = Some (StudentView.stats v).
Proof.
  unfold get_student_attendance.
  destruct (get User.id _ _); [|done].
  destruct (if bool_decide _ then _ else _) as [[]|]; simpl; try done.
  destruct (get Student.id _ _); [|done].
  destruct (student_query _ _ _ _) as [r|records] eqn:Hq.
  - apply student_query_inl in Hq as [[msg ->]| ->]; done.
  - destruct (student_statistics records) as [stats|] eqn:Hst; [|done].
    intros [= <-]. by exists records.
Qed.

(** With usable dates and at most one filter that applies, the query is
    answered. *)
Lemma student_query_ok db student_id args :
  date_arg_ok strptime_date (arg_date_from args) ->
  date_arg_ok strptime_date (arg_date_to args) ->
  (applied_filters args <= 1)%nat ->
  exists records, student_query strptime_date db student_id args = inr records.
Proof.
  unfold student_query, applied_filters, date_arg_ok, query_all, join_filter.
  intros Hfrom Hto Hn.
  destruct (arg_course_id args) as [c|], (arg_date_from args) as [from|],
    (arg_date_to args) as [to|]; simpl in *;
    repeat case_bool_decide; simpl in *; try lia;
    repeat match goal with
    | H : _ = "" \/ is_Some _ |- _ => destruct H as [?|[? ->]]; [done|]
    end; simpl; by eexists.
Qed.

(** With usable dates and two filters that apply or more, the database
    refuses the query. *)
Lemma student_query_refused db student_id args :
  date_arg_ok strptime_date (arg_date_from args) ->
  date_arg_ok strptime_date (arg_date_to args) ->
  (2 <= applied_filters args)%nat ->
  student_query strptime_date db student_id args
  = inl (error duplicate_join_error, 500).
Proof.
  unfold student_query, applied_filters, date_arg_ok, query_all, join_filter.
  intros Hfrom Hto Hn.
  destruct (arg_course_id args) as [c|], (arg_date_from args) as [from|],
    (arg_date_to args) as [to|]; simpl in *;
    repeat case_bool_decide; simpl in *; try lia;
    repeat match goal with
    | H : _ = "" \/ is_Some _ |- _ => destruct H as [?|[? ->]]; [done|]
    end; simpl; done.
Qed.

(** A requester who is not a student passes the permission check. *)
Lemma student_view_permitted db current_user_id student_id user student args :
  get User.id (users db) (int current_user_id) = Some user ->
  User.role user <> STUDENT ->
  get Student.id (students db) student_id = Some student ->
  get_student_attendance strptime_date db current_user_id student_id args
  = match student_query strptime_date db student_id args with
    | inl r => r
    | inr attendance_records =>
        let_found statistics := student_statistics attendance_records
          else_return (error "division by zero", 500) in
        (student_view
           (StudentView.mk student (to_dict <$> attendance_records) statistics),
         200)
    end.
Proof.
  intros Hu Hrole Hs. unfold get_student_attendance. rewrite Hu.
  rewrite bool_decide_eq_false_2 by done. simpl. by rewrite Hs.
Qed.

Lemma student_view_ok db current_user_id student_id args :
  student_view_request db current_user_id student_id ->
  date_arg_ok strptime_date (arg_date_from args) ->
  date_arg_ok strptime_date (arg_date_to args) ->
  (applied_filters args <= 1)%nat ->
  exists v,
    get_student_attendance strptime_date db current_user_id student_id args
    = (student_view v, 200).
Proof.
  intros (user & student & Hu & Hrole & Hs) Hfrom Hto Hn.
  destruct (student_query_ok db student_id args Hfrom Hto Hn) as [records Hq].
  destruct (student_statistics_is_Some records) as [stats Hstats].
  rewrite (student_view_permitted _ _ _ _ _ _ Hu Hrole Hs), Hq, Hstats.
  by eexists.
Qed.

(** The handler never answers with the fault of a division by zero. *)
Lemma student_view_no_division_fault db current_user_id student_id args :
  get_student_attendance strptime_date db current_user_id student_id args
  <> (error "division by zero", 500).
Proof.
  unfold get_student_attendance.
  destruct (get User.id _ _); [|done].
  destruct (if bool_decide _ then _ else _) as [[]|]; simpl; try done.
  destruct (get Student.id _ _); [|done].
  destruct (student_query _ _ _ _) as [r|records] eqn:Hq.
  - apply student_query_inl in Hq as [[msg ->]| ->]; done.
  - by destruct (student_statistics_is_Some records) as [stats ->].
Qed.

End StudentViewFacts.

(** C4, as stated, fails: the reported rate is not the quotient times 100
    itself. The first student of the sample database has three records,
    one of them PRESENT and none LATE; the report carries 33.33, not
    1/3*100 = 33.33333333333333. *)
Lemma student_view_rate_unrounded_counterexample :
  exists v,
    get_student_attendance (fun _ => None) sample_db (str 1) 10 no_filter
    = (student_view v, 200)
    /\ entries_with "PRESENT" (StudentView.attendance_records v) = 1
    /\ entries_with "LATE" (StudentView.attendance_records v) = 0
    /\ Z.of_nat (length (StudentView.attendance_records v)) = 3
    /\ StudentView.attendance_rate (StudentView.stats v)
       = PyFloat (S754_finite false 4690780486883082 (-47))
    /\ Some (StudentView.attendance_rate (StudentView.stats v))
       <> rate (entries_with "PRESENT" (StudentView.attendance_records v)
                + entries_with "LATE" (StudentView.attendance_records v))
               (Z.of_nat (length (StudentView.attendance_records v))).
Proof.
  eexists. split; [vm_compute; reflexivity|].
  repeat split; try (vm_compute; reflexivity).
  vm_compute. discriminate.
Qed.

(** C4, amended: the student view never fails on a division by zero, and
    whenever it answers with a report, the [attendance_rate] of the report
    is [round((present + late) / total * 100, 2)], where the counts and the
    total are those of the records the report lists (the records the query
    returned), not of the sessions the student could have attended; with no
    listed record the rate is the integer 0. A requester who is not a
    student, with usable dates and at most one filter that applies, does
    get the report. *)
Theorem student_view_rate strptime_date db current_user_id student_id args :
  get_student_attendance strptime_date db current_user_id student_id args
  <> (error "division by zero", 500)
  /\ (student_view_request db current_user_id student_id ->
      date_arg_ok strptime_date (arg_date_from args) ->
      date_arg_ok strptime_date (arg_date_to args) ->
      (applied_filters args <= 1)%nat ->
      exists v,
        get_student_attendance strptime_date db current_user_id student_id args
        = (student_view v, 200))
  /\ forall v,
       get_student_attendance strptime_date db current_user_id student_id args
       = (student_view v, 200) ->
       let listed := StudentView.attendance_records v in
       let total := Z.of_nat (length listed) in
       let attended :=
         entries_with "PRESENT" listed + entries_with "LATE" listed in
       (exists records,
          student_query strptime_date db student_id args = inr records
          /\ listed = to_dict <$> records)
       /\ StudentView.total_sessions (StudentView.stats v) = total
       /\ Some (StudentView.attendance_rate (StudentView.stats v))
          = round2 <$> rate attended total
       /\ (listed = [] ->
           StudentView.attendance_rate (StudentView.stats v) = PyInt 0)
       /\ (0 < total ->
           exists q, truediv attended total = Some q
             /\ StudentView.attendance_rate (StudentView.stats v)
                = PyFloat (float_round2 (float_mul_int q 100))).
Proof.
  split; [apply student_view_no_division_fault|].
  split; [apply student_view_ok|].
  intros v (records & Hq & Hlisted & Hstats)%student_view_inv. cbv zeta.
  apply student_statistics_Some in Hstats as (Htotal & _ & _ & _ & _ & Hrate).
  rewrite <-Hlisted in Htotal, Hrate.
  split; [by exists records|]. split; [done|]. split; [done|]. split.
  - intros Hnil. rewrite Hnil in Hrate. by injection Hrate.
  - intros Hpos.
    destruct (rate_pos
      (entries_with "PRESENT" (StudentView.attendance_records v)
       + entries_with "LATE" (StudentView.attendance_records v)) _ Hpos)
      as (q & Hq' & Hr).
    exists q. split; [done|]. rewrite Hr in Hrate. by injection Hrate.
Qed.

Lemma student_view_rate_witness :
  exists v,
    get_student_attendance (fun _ => None) sample_db (str 1) 10 no_filter
    = (student_view v, 200)
    /\ StudentView.total_sessions (StudentView.stats v) = 3.
Proof.
  destruct (student_view_rate (fun _ => None) sample_db (str 1) 10 no_filter)
    as (_ & Hok & Hrate).
  destruct Hok as [v Hv].
  - exists (User.mk 1 "admin@uni" ADMIN true),
           (Student.mk 10 3 "S-010" None None).
    split; [reflexivity|]. split; [discriminate | reflexivity].
  - exact I.
  - exact I.
  - vm_compute. lia.
  - exists v. split; [exact Hv|].
    destruct (Hrate v Hv) as ((records & Hq & Hl) & Htotal & _).
    rewrite Htotal, Hl. vm_compute in Hq. injection Hq as <-. reflexivity.
Defined.

(** ** Rows under a uniqueness constraint *)

Section UniqueKey.
Context {A K : Type} `{EqDecision K} (key : A -> K).
Implicit Types (l : list A) (x : A).

Lemma filter_key_absent l k :
  k ∉ key <$> l -> filter (fun y => key y = k) l = [].
Proof.
  induction l as [|y l IH]; [done|]. csimpl.
  intros [Hy Hl]%not_elem_of_cons.
  rewrite filter_cons_False by done. by apply IH.
Qed.

Lemma filter_key_absent_inv l k :
  filter (fun y => key y = k) l = [] -> k ∉ key <$> l.
Proof.
  intros Hnil (y & -> & Hy)%list_elem_of_fmap.
  by apply (filter_nil_not_elem_of _ _ y Hnil).
Qed.

(** Under the constraint, the rows with the key of a stored row are that
    row alone. *)
Lemma filter_key_unique l i x :
  NoDup (key <$> l) -> l !! i = Some x ->
  filter (fun y => key y = key x) l = [x].
Proof.
  revert i. induction l as [|y l IH]; intros i; [done|]. csimpl.
  intros [Hy Hnd]%NoDup_cons. destruct i as [|i]; simpl.
  - intros [= ->]. rewrite filter_cons_True by done.
    by rewrite filter_key_absent.
  - intros Hx. rewrite filter_cons_False; [by eapply IH|].
    intros Heq. apply Hy. rewrite Heq.
    by apply list_elem_of_fmap_2, list_elem_of_lookup_2 with i.
Qed.

(** Replacing a row by one with the same key keeps the constraint. *)
Lemma NoDup_key_insert l i x x' :
  NoDup (key <$> l) -> l !! i = Some x -> key x' = key x ->
  NoDup (key <$> <[i := x']> l).
Proof.
  intros Hnd Hi Hk. rewrite list_fmap_insert, Hk, list_insert_id; [done|].
  by rewrite list_lookup_fmap, Hi.
Qed.

(** Appending a row with a key not yet used keeps the constraint. *)
Lemma NoDup_key_snoc l x :
  NoDup (key <$> l) -> filter (fun y => key y = key x) l = [] ->
  NoDup (key <$> (l ++ [x])%list).
Proof.
  intros Hnd Hnil%filter_key_absent_inv. rewrite fmap_app. apply NoDup_app.
  split; [done|]. split; [|apply NoDup_singleton].
  intros k Hk ->%list_elem_of_singleton. done.
Qed.

End UniqueKey.

(** ** Lecturer marking *)

Lemma actively_enrolled_same db db' student_id course_id :
  enrollments db' = enrollments db ->
  actively_enrolled db student_id course_id ->
  actively_enrolled db' student_id course_id.
Proof. unfold actively_enrolled. by intros ->. Qed.

(** A request to mark stays valid when only the attendance table changes. *)
Lemma mark_request_same db db' current_user_id data session student_id status :
  users db' = users db -> students db' = students db ->
  courses db' = courses db -> enrollments db' = enrollments db ->
  sessions db' = sessions db ->
  mark_request db current_user_id data session student_id status ->
  mark_request db' current_user_id data session student_id status.
Proof.
  intros Hu Hst Hc He Hs
    (user & course & student & text & H1 & H2 & H3 & H4 & H5 & H6 & H7 & H8
     & H9 & H10 & H11).
  exists user, course, student, text. unfold session_course in *.
  rewrite Hu, Hst, Hc, Hs.
  repeat split; try done. by apply actively_enrolled_same with db.
Qed.

(** What the handler does on a valid request: update the row found, or
    insert a new one. *)
Lemma mark_attendance_cases
    db current_user_id data session student_id status utcnow :
  mark_request db current_user_id data session student_id status ->
  mark_attendance db current_user_id data utcnow
  = match find_existing_record db (Session.id session) student_id with
    | Some (i, r) =>
        let r' := remarked r status utcnow (int current_user_id)
                    (mark_notes data) in
        (message_attendance "Attendance updated successfully" (to_dict r'),
         200, update_attendance db i r')
    | None =>
        let r' := AttendanceRecord.mk
                    (next_id AttendanceRecord.id (attendance_records db))
                    (Session.id session) student_id status utcnow
                    (Some (int current_user_id)) (mark_notes data) in
        (message_attendance "Attendance marked successfully" (to_dict r'),
         201, add_attendance db r')
    end.
Proof.
  intros (user & course & student & text & Hu & Hrole & Hsid & Hstid & Htext
          & Hstatus & Hs & Hc & Hown & Hst & Henr).
  apply active_enrollment_Some in Henr as [e He].
  unfold mark_attendance.
  rewrite Hu, Hrole, Hsid, Hstid, Htext, Hs, Hc, Hst, Hstatus, He.
  rewrite !bool_decide_eq_false_2 by (intros H; by apply H).
  by destruct (find_existing_record _ _ _) as [[i r]|].
Qed.

Lemma find_existing_record_unique db session_id student_id i r :
  unique_attendance db ->
  attendance_records db !! i = Some r ->
  attendance_key r = (session_id, student_id) ->
  find_existing_record db session_id student_id = Some (i, r).
Proof.
  intros Hnd Hi Hk.
  destruct (find_existing_record db session_id student_id) as [[j r']|] eqn:E.
  - apply find_existing_record_Some in E as [Hj Hk'].
    assert (i = j) as ->; [|congruence].
    eapply NoDup_lookup; [exact Hnd| |]; rewrite list_lookup_fmap.
    + by rewrite Hi.
    + rewrite Hj. simpl. congruence.
  - apply find_existing_record_None in E.
    apply list_elem_of_lookup_2 in Hi.
    by destruct (filter_nil_not_elem_of _ _ r E).
Qed.

Lemma records_of_update db i r r' :
  unique_attendance db ->
  attendance_records db !! i = Some r ->
  attendance_key r' = attendance_key r ->
  unique_attendance (update_attendance db i r')
  /\ records_of (update_attendance db i r')
       (AttendanceRecord.session_id r) (AttendanceRecord.student_id r) = [r'].
Proof.
  intros Hnd Hi Hk.
  assert (Hnd' : unique_attendance (update_attendance db i r'))
    by (by apply NoDup_key_insert with r).
  split; [done|]. unfold records_of.
  change (AttendanceRecord.session_id r, AttendanceRecord.student_id r)
    with (attendance_key r). rewrite <-Hk.
  apply (filter_key_unique attendance_key _ i); [done|]. simpl.
  apply list_lookup_insert_eq. by eapply lookup_lt_Some.
Qed.

Lemma records_of_add db r :
  unique_attendance db ->
  records_of db (AttendanceRecord.session_id r) (AttendanceRecord.student_id r)
  = [] ->
  unique_attendance (add_attendance db r)
  /\ records_of (add_attendance db r)
       (AttendanceRecord.session_id r) (AttendanceRecord.student_id r) = [r]
  /\ find_existing_record (add_attendance db r)
       (AttendanceRecord.session_id r) (AttendanceRecord.student_id r)
     = Some (length (attendance_records db), r).
Proof.
  intros Hnd Hnil.
  assert (Hnd' : unique_attendance (add_attendance db r))
    by (by apply NoDup_key_snoc).
  assert (Hi : attendance_records (add_attendance db r)
               !! length (attendance_records db) = Some r)
    by (simpl; apply list_lookup_middle; done).
  split; [done|]. split.
  - unfold records_of in *. simpl. rewrite filter_app, Hnil. simpl.
    by rewrite filter_cons_True.
  - by apply find_existing_record_unique.
Qed.

(** The state after a valid mark: the pair has exactly one record, the one
    the answer shows; the other tables are untouched. *)
Lemma mark_attendance_result
    db current_user_id data session student_id status utcnow :
  unique_attendance db ->
  mark_request db current_user_id data session student_id status ->
  exists i r,
    let out := mark_attendance db current_user_id data utcnow in
    (out.1 = (message_attendance "Attendance updated successfully"
                (to_dict r), 200)
     \/ out.1 = (message_attendance "Attendance marked successfully"
                  (to_dict r), 201))
    /\ attendance_records out.2 !! i = Some r
    /\ attendance_key r = (Session.id session, student_id)
    /\ AttendanceRecord.status r = status
    /\ AttendanceRecord.marked_at r = utcnow
    /\ unique_attendance out.2
    /\ records_of out.2 (Session.id session) student_id = [r]
    /\ mark_request out.2 current_user_id data session student_id status.
Proof.
  intros Hnd Hreq. rewrite (mark_attendance_cases _ _ _ _ _ _ utcnow Hreq).
  destruct (find_existing_record db (Session.id session) student_id)
    as [[i r]|] eqn:E.
  - apply find_existing_record_Some in E as [Hi Hk].
    pose proof Hk as [Hs Hst]%attendance_key_eq.
    set (r' := remarked r status utcnow (int current_user_id) (mark_notes data)).
    destruct (records_of_update db i r r' Hnd Hi eq_refl) as [Hnd' Hrec].
    rewrite Hs, Hst in Hrec.
    exists i, r'. simpl. split; [by left|]. split.
    { apply list_lookup_insert_eq. by eapply lookup_lt_Some. }
    repeat split; done.
  - apply find_existing_record_None in E.
    set (r' := AttendanceRecord.mk _ _ _ _ _ _ _).
    destruct (records_of_add db r' Hnd E) as (Hnd' & Hrec & Hfind).
    exists (length (attendance_records db)), r'. simpl. split; [by right|].
    split; [by apply list_lookup_middle|].
    repeat split; done.
Qed.

(** C7: a lecturer's mark on a (session, student) pair that has a record
    rewrites that row where it stands: status, notes, [marked_by] and
    [marked_at] change, the key and the primary key stay, the table keeps
    its length and the pair has exactly one record. Marking a second time
    (same body) leaves the record of the first mark with [marked_at]
    refreshed. A record stored by a check-in is overwritten in the same
    way. *)
Theorem mark_updates_in_place
    db current_user_id data session student_id status utcnow :
  unique_attendance db ->
  mark_request db current_user_id data session student_id status ->
  let sid := Session.id session in
  let marker := int current_user_id in
  let out := mark_attendance db current_user_id data utcnow in
  (forall i r,
     attendance_records db !! i = Some r ->
     attendance_key r = (sid, student_id) ->
     let r' := remarked r status utcnow marker (mark_notes data) in
     out = (message_attendance "Attendance updated successfully" (to_dict r'),
            200, update_attendance db i r')
     /\ attendance_records out.2 = <[i := r']> (attendance_records db)
     /\ AttendanceRecord.id r' = AttendanceRecord.id r
     /\ length (attendance_records out.2) = length (attendance_records db)
     /\ records_of out.2 sid student_id = [r'])
  /\ (forall utcnow',
        let out' := mark_attendance out.2 current_user_id data utcnow' in
        exists r,
          records_of out.2 sid student_id = [r]
          /\ AttendanceRecord.status r = status
          /\ AttendanceRecord.marked_at r = utcnow
          /\ out'.1 = (message_attendance "Attendance updated successfully"
                         (to_dict (remarked r status utcnow' marker
                                     (mark_notes data))), 200)
          /\ records_of out'.2 sid student_id
             = [remarked r status utcnow' marker (mark_notes data)]
          /\ length (attendance_records out'.2)
             = length (attendance_records out.2))
  /\ (forall db0 student_user checkin_body now utcnow0 body,
        checkin db0 student_user checkin_body now utcnow0 = (body, 201, db) ->
        exists r,
          body = message_attendance "Checked in successfully" (to_dict r)
          /\ (attendance_key r = (sid, student_id) ->
              out.1 = (message_attendance "Attendance updated successfully"
                         (to_dict (remarked r status utcnow marker
                                     (mark_notes data))), 200)
              /\ records_of out.2 sid student_id
                 = [remarked r status utcnow marker (mark_notes data)])).
Proof.
  intros Hnd Hreq sid marker out. subst sid marker.
  assert (Hupdate : forall i r,
     attendance_records db !! i = Some r ->
     attendance_key r = (Session.id session, student_id) ->
     let r' := remarked r status utcnow (int current_user_id)
                 (mark_notes data) in
     out = (message_attendance "Attendance updated successfully" (to_dict r'),
            200, update_attendance db i r')
     /\ records_of out.2 (Session.id session) student_id = [r']).
  { intros i r Hi Hk r'. subst out.
    rewrite (mark_attendance_cases _ _ _ _ _ _ utcnow Hreq).
    rewrite (find_existing_record_unique _ _ _ _ _ Hnd Hi Hk).
    split; [done|]. simpl.
    destruct (records_of_update db i r r' Hnd Hi eq_refl) as [_ Hrec].
    apply attendance_key_eq in Hk as [Hs Hst]. by rewrite Hs, Hst in Hrec. }
  split; [|split].
  - intros i r Hi Hk r'. destruct (Hupdate i r Hi Hk) as [Hout Hrec].
    split; [done|]. fold r' in Hrec. rewrite Hout in *. simpl.
    split; [done|]. split; [done|]. split; [apply length_insert | done].
  - intros utcnow' out'.
    destruct (mark_attendance_result _ _ _ _ _ _ utcnow Hnd Hreq)
      as (i & r & _ & Hi & Hk & Hst & Hat & Hnd' & Hrec & Hreq').
    fold out in Hi, Hnd', Hrec, Hreq'. exists r.
    split; [done|]. split; [done|]. split; [done|]. subst out'.
    rewrite (mark_attendance_cases _ _ _ _ _ _ utcnow' Hreq').
    rewrite (find_existing_record_unique _ _ _ _ _ Hnd' Hi Hk). simpl.
    split; [done|].
    destruct (records_of_update out.2 i r
                (remarked r status utcnow' (int current_user_id)
                   (mark_notes data))
                Hnd' Hi eq_refl) as [_ Hrec'].
    apply attendance_key_eq in Hk as [Hs Hst']. rewrite Hs, Hst' in Hrec'.
    split; [done|]. apply length_insert.
  - intros db0 student_user checkin_body now utcnow0 body
      (r & Hbody & Hdb & _)%checkin_created.
    exists r. split; [done|]. intros Hk.
    destruct (Hupdate (length (attendance_records db0)) r) as [Hout Hrec].
    + rewrite Hdb. simpl. by apply list_lookup_middle.
    + done.
    + by rewrite Hout in *.
Qed.

Lemma mark_updates_in_place_witness :
  records_of (mark_attendance sample_db (str 2) sample_mark day2).2 1001 10
  = [remarked (sample_record 2 1001 10 ABSENT) LATE day2 2
       (mark_notes sample_mark)]
  /\ length (attendance_records
               (mark_attendance sample_db (str 2) sample_mark day2).2)
     = 4%nat.
Proof.
  destruct (mark_updates_in_place sample_db (str 2) sample_mark
              (sample_session 1001 5 false) 10 LATE day2) as (Hupdate & _ & _).
  - apply (bool_decide_unpack _). vm_compute. exact I.
  - exists (User.mk 2 "lecturer@uni" LECTURER true),
           (Course.mk 100 "CS101" "Programming" 2 ACTIVE),
           (Student.mk 10 3 "S-010" None None), "late".
    repeat split; try reflexivity.
    exists (Enrollment.mk 1 10 100 day1 true). repeat split. elem.
  - destruct (Hupdate 1%nat (sample_record 2 1001 10 ABSENT) eq_refl eq_refl)
      as (_ & _ & _ & Hlen & Hrec).
    split; [exact Hrec | exact Hlen].
Defined.

(** C9: a lecturer's mark does not consult [attendance_open]. For every
    session of a course the lecturer owns, open or not, and every student
    with an active enrollment in that course, a well-formed mark succeeds:
    it answers 200 after updating the record of the pair, or 201 after
    creating it, and the table then holds that record with the status
    asked for. On the same session, when the gate is closed, a student's
    check-in is refused. *)
Theorem mark_ignores_attendance_open
    db current_user_id data session student_id status utcnow :
  mark_request db current_user_id data session student_id status ->
  let out := mark_attendance db current_user_id data utcnow in
  (exists r,
     (out.1 = (message_attendance "Attendance updated successfully"
                 (to_dict r), 200)
      /\ ~ records_of db (Session.id session) student_id = []
      \/ out.1 = (message_attendance "Attendance marked successfully"
                    (to_dict r), 201)
         /\ records_of db (Session.id session) student_id = [])
     /\ r ∈ attendance_records out.2
     /\ attendance_key r = (Session.id session, student_id)
     /\ AttendanceRecord.status r = status)
  /\ (Session.attendance_open session = false ->
      forall student_user checkin_body profile now,
        checkin_request db student_user checkin_body profile session ->
        checkin db student_user checkin_body now utcnow = (SessionClosed, db)).
Proof.
  intros Hreq out. split.
  - subst out. rewrite (mark_attendance_cases _ _ _ _ _ _ utcnow Hreq).
    destruct (find_existing_record db (Session.id session) student_id)
      as [[i r]|] eqn:E.
    + pose proof E as [Hi Hk]%find_existing_record_Some.
      eexists. split; [left; split; [done|]|].
      { intros Hnil%find_existing_record_None. congruence. }
      simpl. split; [|done].
      apply list_elem_of_insert. by eapply lookup_lt_Some.
    + eexists. split; [right; split; [done|]|].
      { by apply find_existing_record_None. }
      simpl. split; [|done]. apply elem_of_app. right. apply list_elem_of_here.
  - intros Hclosed student_user checkin_body profile now Hcheck.
    rewrite (checkin_guards _ _ _ _ _ now utcnow Hcheck). by rewrite Hclosed.
Qed.

Lemma mark_ignores_attendance_open_witness :
  Session.attendance_open (sample_session 1001 5 false) = false
  /\ (mark_attendance sample_db (str 2) sample_mark day2).1.2 = 200.
Proof.
  split; [reflexivity|].
  destruct (mark_ignores_attendance_open sample_db (str 2) sample_mark
              (sample_session 1001 5 false) 10 LATE day2)
    as [(r & [[Hout _]|[Hout _]] & _) _].
  - exists (User.mk 2 "lecturer@uni" LECTURER true),
           (Course.mk 100 "CS101" "Programming" 2 ACTIVE),
           (Student.mk 10 3 "S-010" None None), "late".
    repeat split; try reflexivity.
    exists (Enrollment.mk 1 10 100 day1 true). repeat split. elem.
  - rewrite Hout. reflexivity.
  - rewrite Hout. vm_compute in Hout. discriminate Hout.
Defined.

(** ** Enrollment *)

Lemma enrollment_key_eq e student_id course_id :
  enrollment_key e = (student_id, course_id) <->
  Enrollment.student_id e = student_id /\ Enrollment.course_id e = course_id.
Proof. unfold enrollment_key. split; [by intros [= -> ->] | by intros [-> ->]]. Qed.

Lemma find_existing_enrollment_Some db student_id course_id i e :
  find_existing_enrollment db student_id course_id = Some (i, e) ->
  enrollments db !! i = Some e /\ enrollment_key e = (student_id, course_id).
Proof.
  unfold find_existing_enrollment. intros (Hi & HP & _)%list_find_Some.
  by rewrite enrollment_key_eq.
Qed.

Lemma find_existing_enrollment_None db student_id course_id :
  find_existing_enrollment db student_id course_id = None <->
  enrollments_of db student_id course_id = [].
Proof.
  unfold find_existing_enrollment, enrollments_of.
  rewrite list_find_None, Forall_forall. split.
  - intros Hno. destruct (filter _ _) as [|e l] eqn:E; [done|].
    assert (He : e ∈ filter (fun e => enrollment_key e = (student_id, course_id))
                        (enrollments db)) by (rewrite E; left).
    apply list_elem_of_filter in He as [Hk He]. apply enrollment_key_eq in Hk.
    by destruct (Hno e He).
  - intros Hnil e He Hk. apply enrollment_key_eq in Hk.
    by apply (filter_nil_not_elem_of _ _ e Hnil).
Qed.

Lemma find_existing_enrollment_unique db student_id course_id i e :
  unique_enrollment db ->
  enrollments db !! i = Some e ->
  enrollment_key e = (student_id, course_id) ->
  find_existing_enrollment db student_id course_id = Some (i, e).
Proof.
  intros Hnd Hi Hk.
  destruct (find_existing_enrollment db student_id course_id)
    as [[j e']|] eqn:E.
  - apply find_existing_enrollment_Some in E as [Hj Hk'].
    assert (i = j) as ->; [|congruence].
    eapply NoDup_lookup; [exact Hnd| |]; rewrite list_lookup_fmap.
    + by rewrite Hi.
    + rewrite Hj. simpl. congruence.
  - apply find_existing_enrollment_None in E.
    apply list_elem_of_lookup_2 in Hi.
    by destruct (filter_nil_not_elem_of _ _ e E).
Qed.





(** * Further properties of the claimed handlers *)

(** ** What a check-in can do to the database *)

Lemma attendance_id_fresh db r :
  AttendanceRecord.id r = next_id AttendanceRecord.id (attendance_records db) ->
  filter (fun y => AttendanceRecord.id y = AttendanceRecord.id r)
         (attendance_records db) = [].
Proof.
  intros Hid. apply filter_key_absent.
  intros (y & Hy & Hin)%list_elem_of_fmap.
  apply (next_id_fresh AttendanceRecord.id) in Hin. lia.
Qed.



(** ** What a mark can do to the database *)

(** Every outcome of [mark_attendance], whatever the request: nothing is
    written, or the row found for the pair is rewritten in place, or a row
    is appended when the pair has none; a write is only made by a lecturer
    who owns the course of the session, for an actively enrolled student. *)
Lemma mark_attendance_outcome db current_user_id data utcnow :
  let out := mark_attendance db current_user_id data utcnow in
  out.2 = db /\ out.1.2 <> 200 /\ out.1.2 <> 201
  \/ exists user session course session_id student_id status,
       get User.id (users db) (int current_user_id) = Some user
       /\ User.role user = LECTURER
       /\ mark_session_id data = Some session_id
       /\ mark_student_id data = Some student_id
       /\ get Session.id (sessions db) session_id = Some session
       /\ session_course db session = Some course
       /\ Course.lecturer_id course = int current_user_id
       /\ actively_enrolled db student_id (Session.course_id session)
       /\ ((exists i r,
              find_existing_record db session_id student_id = Some (i, r)
              /\ out = (message_attendance "Attendance updated successfully"
                          (to_dict (remarked r status utcnow
                                      (int current_user_id) (mark_notes data))),
                        200,
                        update_attendance db i
                          (remarked r status utcnow (int current_user_id)
                             (mark_notes data))))
           \/ (exists r,
                 find_existing_record db session_id student_id = None
                 /\ attendance_key r = (session_id, student_id)
                 /\ AttendanceRecord.id r
                    = next_id AttendanceRecord.id (attendance_records db)
                 /\ AttendanceRecord.status r = status
                 /\ out = (message_attendance "Attendance marked successfully"
                             (to_dict r), 201, add_attendance db r))).
Proof.
  unfold mark_attendance.
  destruct (get User.id _ _) as [user|] eqn:Hu; [|by left].
  case_bool_decide as Hrole; [by left|].
  destruct (mark_session_id data) as [sid|]; [|by left].
  destruct (mark_student_id data) as [stid|]; [|by left].
  destruct (mark_status data) as [text|]; [|by left].
  destruct (get Session.id _ _) as [session|] eqn:Hs; [|by left].
  destruct (session_course _ _) as [course|] eqn:Hc; [|by left].
  case_bool_decide as Hown; [by left|].
  destruct (get Student.id _ _) as [student|]; [|by left].
  destruct (AttendanceStatus_of_value _) as [status|]; [|by left].
  destruct (active_enrollment _ _ _) as [e|] eqn:He; [|by left].
  right. exists user, session, course, sid, stid, status.
  split; [done|]. split; [by destruct (User.role user)|].
  split; [done|]. split; [done|]. split; [done|]. split; [done|].
  split; [by destruct (decide (Course.lecturer_id course = int current_user_id))|].
  split.
  { apply first_Some in He as (Hin & H1 & H2 & H3). by exists e. }
  destruct (find_existing_record _ _ _) as [[i r]|] eqn:E.
  - left. by exists i, r.
  - right. eexists. repeat split; done.
Qed.

(** X3: [mark_attendance] keeps the constraints of the attendance table,
    whatever the request: (session, student) pairs stay unique, primary
    keys stay distinct, and no other table changes. *)
Theorem mark_keeps_constraints db current_user_id data utcnow :
  unique_attendance db -> attendance_ids_distinct db ->
  let db' := (mark_attendance db current_user_id data utcnow).2 in
  unique_attendance db' /\ attendance_ids_distinct db'
  /\ same_but_attendance db db'.
Proof.
  intros Hpairs Hids db'. subst db'.
  destruct (mark_attendance_outcome db current_user_id data utcnow)
    as [[-> _]|(user & session & course & sid & stid & status & _ & _ & _ & _
                & _ & _ & _ & _ & [(i & r & E & ->)|(r & E & Hk & Hid & _ & ->)])];
    [done| |]; simpl.
  - apply find_existing_record_Some in E as [Hi _].
    split; [by apply NoDup_key_insert with r|].
    split; [by apply NoDup_key_insert with r | done].
  - apply find_existing_record_None in E. unfold records_of in E.
    rewrite <-Hk in E.
    split; [by apply NoDup_key_snoc|]. split; [|done].
    apply NoDup_key_snoc; [done|]. by apply attendance_id_fresh.
Qed.

Lemma mark_keeps_constraints_witness :
  unique_attendance (mark_attendance sample_db (str 2) sample_mark day2).2
  /\ length (attendance_records
               (mark_attendance sample_db (str 2) sample_mark day2).2) = 4%nat.
Proof.
  split; [|reflexivity].
  apply (mark_keeps_constraints sample_db (str 2) sample_mark day2);
    apply (bool_decide_unpack _); vm_compute; exact I.
Defined.

(** X4: [mark_attendance] writes only for a lecturer on the lecturer's own
    course: if a request changes the database, the requester is a LECTURER,
    the course of the session named in the body has the requester as
    [lecturer_id], and the student named in the body is actively enrolled
    in that course. *)
Theorem mark_requires_ownership db current_user_id data utcnow :
  (mark_attendance db current_user_id data utcnow).2 <> db ->
  exists user session course session_id student_id,
    get User.id (users db) (int current_user_id) = Some user
    /\ User.role user = LECTURER
    /\ mark_session_id data = Some session_id
    /\ mark_student_id data = Some student_id
    /\ get Session.id (sessions db) session_id = Some session
    /\ session_course db session = Some course
    /\ Course.lecturer_id course = int current_user_id
    /\ actively_enrolled db student_id (Session.course_id session).
Proof.
  intros Hchanged.
  destruct (mark_attendance_outcome db current_user_id data utcnow)
    as [[Hsame _]|(user & session & course & sid & stid & status & H)];
    [done|].
  exists user, session, course, sid, stid. tauto.
Qed.

Lemma mark_requires_ownership_witness :
  exists course,
    session_course sample_db (sample_session 1001 5 false) = Some course
    /\ Course.lecturer_id course = 2.
Proof.
  destruct (mark_requires_ownership sample_db (str 2) sample_mark day2)
    as (user & session & course & sid & stid & _ & _ & Hsid & _ & Hs & Hc
        & Hown & _).
  - vm_compute. discriminate.
  - injection Hsid as <-. vm_compute in Hs. injection Hs as <-.
    exists course. split; [exact Hc | exact Hown].
Defined.

Lemma filter_insert_irrelevant {A} (P : A -> Prop) `{!forall x, Decision (P x)}
    (l : list A) i x x' :
  l !! i = Some x -> ~ P x -> ~ P x' -> filter P (<[i := x']> l) = filter P l.
Proof.
  revert i. induction l as [|y l IH]; intros i; [done|].
  destruct i as [|i]; simpl.
  - intros [= ->] Hx Hx'. by rewrite !filter_cons_False.
  - intros Hi Hx Hx'. rewrite !filter_cons, (IH i) by done. done.
Qed.

(** X5: [mark_attendance] touches one pair only: for every (session,
    student) pair other than the one named in the body, the records of the
    pair are the same before and after, whatever the request. *)
Theorem mark_leaves_other_pairs db current_user_id data utcnow session_id student_id :
  (mark_session_id data, mark_student_id data)
  <> (Some session_id, Some student_id) ->
  records_of (mark_attendance db current_user_id data utcnow).2
    session_id student_id
  = records_of db session_id student_id.
Proof.
  intros Hother.
  destruct (mark_attendance_outcome db current_user_id data utcnow)
    as [[-> _]|(user & session & course & sid & stid & status & _ & _ & Hsid
                & Hstid & _ & _ & _ & _
                & [(i & r & E & ->)|(r & E & Hk & _ & _ & ->)])];
    [done| |]; simpl; rewrite Hsid, Hstid in Hother.
  - apply find_existing_record_Some in E as [Hi Hk]. unfold records_of. simpl.
    assert (Hne : attendance_key r <> (session_id, student_id)).
    { rewrite Hk. intros [= -> ->]. done. }
    apply (filter_insert_irrelevant _ _ i r); [done | done | exact Hne].
  - unfold records_of. simpl. rewrite filter_app, filter_cons_False.
    + by rewrite filter_nil, app_nil_r.
    + rewrite Hk. intros [= -> ->]. done.
Qed.

Lemma mark_leaves_other_pairs_witness :
  records_of (mark_attendance sample_db (str 2) sample_mark day2).2 1001 11
  = [sample_record 4 1001 11 LATE].
Proof.
  rewrite (mark_leaves_other_pairs sample_db (str 2) sample_mark day2 1001 11).
  - reflexivity.
  - discriminate.
Defined.

(** ** What an enrollment can do to the database *)





(** * Sessions: opening, closing and deleting *)

Lemma list_find_insert_same {A} (P : A -> Prop) `{!forall x, Decision (P x)}
    (l : list A) i x x' :
  list_find P l = Some (i, x) -> P x' ->
  list_find P (<[i := x']> l) = Some (i, x').
Proof.
  intros (Hi & HP & Hbefore)%list_find_Some HP'. apply list_find_Some.
  split; [apply list_lookup_insert_eq; by eapply lookup_lt_Some|].
  split; [done|]. intros j y Hj Hlt.
  rewrite list_lookup_insert_ne in Hj by lia. by eapply Hbefore.
Qed.

Lemma find_session_get db session_id :
  get Session.id (sessions db) session_id = snd <$> find_session db session_id.
Proof. done. Qed.

Lemma get_find_session db session_id session :
  get Session.id (sessions db) session_id = Some session ->
  exists i, find_session db session_id = Some (i, session)
            /\ sessions db !! i = Some session
            /\ Session.id session = session_id.
Proof.
  rewrite find_session_get. destruct (find_session db session_id)
    as [[i s]|] eqn:E; [|done].
  intros [= ->]. exists i. split; [done|].
  by apply list_find_Some in E as (Hi & Hid & _).
Qed.

(** Every outcome of [start_session] ([target] true) and [end_session]
    ([target] false), whatever the request. *)
Lemma toggle_session_outcome only_lecturers conflict done target
    db current_user_id session_id :
  let out := toggle_session only_lecturers conflict done target
               db current_user_id session_id in
  out.2 = db /\ out.1.2 <> 200
  \/ exists i session course user,
       find_session db session_id = Some (i, session)
       /\ get User.id (users db) (int current_user_id) = Some user
       /\ User.role user = LECTURER
       /\ session_course db session = Some course
       /\ Course.lecturer_id course = int current_user_id
       /\ Session.attendance_open session = negb target
       /\ out = (message_session done (set_attendance_open session target),
                 200,
                 update_session_row db i (set_attendance_open session target)).
Proof.
  unfold toggle_session.
  destruct (get User.id _ _) as [user|] eqn:Hu; [|by left].
  case_bool_decide as Hrole; [by left|].
  destruct (find_session _ _) as [[i session]|] eqn:E; [|by left].
  destruct (session_course _ _) as [course|] eqn:Hc; [|by left].
  case_bool_decide as Hown; [by left|].
  case_bool_decide as Hflag; [by left|].
  right. exists i, session, course, user.
  split; [done|]. split; [done|]. split; [by destruct (User.role user)|].
  split; [done|].
  split; [by destruct (decide (Course.lecturer_id course = int current_user_id))|].
  split; [|done]. by destruct (Session.attendance_open session), target.
Qed.

(** What the owner of the course gets, by the state of the flag. *)
Lemma toggle_session_owner only_lecturers conflict done target
    db current_user_id session :
  owner_request db current_user_id session ->
  exists i,
    sessions db !! i = Some session
    /\ find_session db (Session.id session) = Some (i, session)
    /\ toggle_session only_lecturers conflict done target
         db current_user_id (Session.id session)
       = if bool_decide (Session.attendance_open session = target)
         then (plain (error conflict), 400, db)
         else (message_session done (set_attendance_open session target), 200,
               update_session_row db i (set_attendance_open session target)).
Proof.
  intros (user & course & Hu & Hrole & Hs & Hc & Hown).
  apply get_find_session in Hs as (i & Hfind & Hi & _).
  exists i. split; [done|]. split; [done|].
  unfold toggle_session. rewrite Hu, Hrole, Hfind, Hc.
  by rewrite !bool_decide_eq_false_2 by (intros H; by apply H).
Qed.

Lemma owner_request_toggled db current_user_id i session target :
  owner_request db current_user_id session ->
  find_session db (Session.id session) = Some (i, session) ->
  owner_request (update_session_row db i (set_attendance_open session target))
    current_user_id (set_attendance_open session target).
Proof.
  intros (user & course & Hu & Hrole & Hs & Hc & Hown) Hfind.
  exists user, course. split; [done|]. split; [done|]. split; [|done].
  rewrite find_session_get. unfold find_session. simpl.
  by rewrite (list_find_insert_same _ _ i session).
Qed.



Lemma set_attendance_open_twice session b :
  set_attendance_open (set_attendance_open session b)
    (Session.attendance_open session) = session.
Proof. by destruct session. Qed.

(** X12: [start_session] and [end_session] undo each other. For the
    lecturer who owns the course, starting a closed session and then ending
    it, or ending an open session and then starting it, both answer 200 and
    leave the database exactly as it was. *)
Theorem start_end_round_trip db lecturer session :
  owner_request db lecturer session ->
  let sid := Session.id session in
  (Session.attendance_open session = false ->
   (start_session db lecturer sid).1.2 = 200
   /\ end_session (start_session db lecturer sid).2 lecturer sid
      = (message_session "Session ended successfully" session, 200, db))
  /\ (Session.attendance_open session = true ->
      (end_session db lecturer sid).1.2 = 200
      /\ start_session (end_session db lecturer sid).2 lecturer sid
         = (message_session "Session started successfully" session, 200, db)).
Proof.
  intros Hown sid. subst sid.
  assert (Hround : forall l1 c1 d1 l2 c2 d2 target,
    Session.attendance_open session = negb target ->
    (toggle_session l1 c1 d1 target db lecturer (Session.id session)).1.2 = 200
    /\ toggle_session l2 c2 d2 (negb target)
         (toggle_session l1 c1 d1 target db lecturer (Session.id session)).2
         lecturer (Session.id session)
       = (message_session d2 session, 200, db)).
  { intros l1 c1 d1 l2 c2 d2 target Hflag.
    destruct (toggle_session_owner l1 c1 d1 target _ _ _ Hown)
      as (i & Hi & Hfind & ->).
    rewrite bool_decide_eq_false_2 by (rewrite Hflag; by destruct target).
    split; [done|]. simpl.
    pose proof (owner_request_toggled _ _ _ _ target Hown Hfind) as Hown'.
    destruct (toggle_session_owner l2 c2 d2 (negb target) _ _ _ Hown')
      as (j & Hj & Hfind' & Hback).
    simpl in Hback, Hfind'. rewrite Hback.
    rewrite bool_decide_eq_false_2 by (by destruct target).
    assert (j = i) as ->.
    { unfold find_session in Hfind'. simpl in Hfind'.
      rewrite (list_find_insert_same _ _ i session
                 (set_attendance_open session target) Hfind eq_refl) in Hfind'.
      congruence. }
    rewrite <-Hflag, set_attendance_open_twice. do 2 f_equal.
    unfold update_session_row. simpl.
    rewrite list_insert_insert_eq, list_insert_id by done. by destruct db. }
  split; intros Hflag.
  - by apply (Hround _ _ _ _ _ _ true).
  - by apply (Hround _ _ _ _ _ _ false).
Qed.

Lemma start_end_round_trip_witness :
  end_session (start_session closed_db (str 2) 1002).2 (str 2) 1002
  = (message_session "Session ended successfully" (sample_session 1002 6 false),
     200, closed_db).
Proof.
  destruct (start_end_round_trip closed_db (str 2) (sample_session 1002 6 false))
    as [Hstart _].
  - exists (User.mk 2 "lecturer@uni" LECTURER true),
           (Course.mk 100 "CS101" "Programming" 2 ACTIVE).
    repeat split; reflexivity.
  - destruct Hstart as [_ Hback]; [reflexivity|exact Hback].
Defined.

(** X13: [start_session] and [end_session] change nothing but the
    [attendance_open] flag of the session they name, whatever the request:
    the other tables are the same, the session table keeps its rows in
    place, a row with another key is untouched, and a row that changed
    differs from the old one in the flag alone. *)
Theorem session_toggle_changes_flag_only db current_user_id session_id :
  forall out,
    out = start_session db current_user_id session_id
    \/ out = end_session db current_user_id session_id ->
    users out.2 = users db /\ students out.2 = students db
    /\ courses out.2 = courses db /\ enrollments out.2 = enrollments db
    /\ attendance_records out.2 = attendance_records db
    /\ length (sessions out.2) = length (sessions db)
    /\ forall j s,
         sessions db !! j = Some s ->
         exists s',
           sessions out.2 !! j = Some s'
           /\ set_attendance_open s' (Session.attendance_open s) = s
           /\ (Session.id s <> session_id -> s' = s).
Proof.
  assert (Hframe : forall l c d target,
    let out := toggle_session l c d target db current_user_id session_id in
    users out.2 = users db /\ students out.2 = students db
    /\ courses out.2 = courses db /\ enrollments out.2 = enrollments db
    /\ attendance_records out.2 = attendance_records db
    /\ length (sessions out.2) = length (sessions db)
    /\ forall j s,
         sessions db !! j = Some s ->
         exists s',
           sessions out.2 !! j = Some s'
           /\ set_attendance_open s' (Session.attendance_open s) = s
           /\ (Session.id s <> session_id -> s' = s)).
  { intros l c d target out. subst out.
    destruct (toggle_session_outcome l c d target db current_user_id session_id)
      as [[-> _]|(i & session & course & user & Hfind & _ & _ & _ & _ & _ & ->)].
    - repeat split; try done. intros j s Hj. exists s.
      split; [done|]. split; [by destruct s | done].
    - simpl. repeat split; try done; [apply length_insert|].
      apply list_find_Some in Hfind as (Hi & Hid & _).
      intros j s Hj. destruct (decide (j = i)) as [->|Hne].
      + exists (set_attendance_open session target).
        rewrite list_lookup_insert_eq by (by eapply lookup_lt_Some).
        assert (s = session) as -> by congruence.
        split; [done|]. split; [by destruct session | done].
      + exists s. rewrite list_lookup_insert_ne by done.
        split; [done|]. split; [by destruct s | done]. }
  intros out [->| ->]; apply Hframe.
Qed.

Lemma session_toggle_changes_flag_only_witness :
  sessions (start_session closed_db (str 2) 1002).2 !! 0%nat
  = Some (sample_session 1000 4 true).
Proof.
  destruct (session_toggle_changes_flag_only closed_db (str 2) 1002
              (start_session closed_db (str 2) 1002))
    as (_ & _ & _ & _ & _ & _ & Hrows); [by left|].
  destruct (Hrows 0%nat (sample_session 1000 4 true)) as (s' & Hs' & _ & Hsame);
    [reflexivity|].
  rewrite Hs'. f_equal. apply Hsame. discriminate.
Defined.

(** ** Deleting a session *)

Lemma delete_key_absent {A} (key : A -> Z) (l : list A) i x :
  NoDup (key <$> l) -> l !! i = Some x -> key x ∉ key <$> delete i l.
Proof.
  revert i. induction l as [|y l IH]; intros i; [done|]. csimpl.
  intros [Hy Hnd]%NoDup_cons. destruct i as [|i]; simpl.
  - by intros [= ->].
  - intros Hx. csimpl. apply not_elem_of_cons. split; [|by apply IH].
    intros Heq. apply Hy. rewrite <-Heq.
    by apply list_elem_of_fmap_2, list_elem_of_lookup_2 with i.
Qed.

(** Every outcome of [delete_session], whatever the request. *)
Lemma delete_session_outcome db current_user_id session_id :
  let out := delete_session db current_user_id session_id in
  out.2 = db /\ out.1.2 <> 200
  \/ exists i session course user,
       find_session db session_id = Some (i, session)
       /\ get User.id (users db) (int current_user_id) = Some user
       /\ User.role user = LECTURER
       /\ session_course db session = Some course
       /\ Course.lecturer_id course = int current_user_id
       /\ out = (plain (message "Session deleted successfully"), 200,
                 delete_session_row db i session).
Proof.
  unfold delete_session.
  destruct (get User.id _ _) as [user|] eqn:Hu; [|by left].
  case_bool_decide as Hrole; [by left|].
  destruct (find_session _ _) as [[i session]|] eqn:E; [|by left].
  destruct (session_course _ _) as [course|] eqn:Hc; [|by left].
  case_bool_decide as Hown; [by left|].
  right. exists i, session, course, user.
  split; [done|]. split; [done|]. split; [by destruct (User.role user)|].
  split; [done|]. split; [|done].
  by destruct (decide (Course.lecturer_id course = int current_user_id)).
Qed.

(** X14: deleting a session takes its attendance with it and nothing else.
    When [delete_session] answers 200 the requester is the lecturer of the
    session's course; afterwards the attendance table holds exactly the
    old records of the other sessions, in order, the session table has one
    row less, the other tables are the same and the pair constraint still
    holds; with distinct session keys the session can no longer be found.
    Any other answer leaves the database as it was. *)
Theorem delete_session_cascades db current_user_id session_id :
  let out := delete_session db current_user_id session_id in
  (out.1.2 <> 200 -> out.2 = db)
  /\ (out.1.2 = 200 ->
      (exists session course,
         get Session.id (sessions db) session_id = Some session
         /\ session_course db session = Some course
         /\ Course.lecturer_id course = int current_user_id)
      /\ attendance_records out.2
         = filter (fun r => AttendanceRecord.session_id r <> session_id)
                  (attendance_records db)
      /\ (forall student_id, records_of out.2 session_id student_id = [])
      /\ (forall other student_id, other <> session_id ->
            records_of out.2 other student_id = records_of db other student_id)
      /\ S (length (sessions out.2)) = length (sessions db)
      /\ users out.2 = users db /\ students out.2 = students db
      /\ courses out.2 = courses db /\ enrollments out.2 = enrollments db
      /\ (unique_attendance db -> unique_attendance out.2)
      /\ (session_ids_distinct db ->
          get Session.id (sessions out.2) session_id = None)).
Proof.
  intros out. subst out.
  destruct (delete_session_outcome db current_user_id session_id)
    as [[Hsame Hcode]|(i & session & course & user & Hfind & _ & _ & Hc & Hown
                       & ->)].
  { split; [done|]. intros Hok. done. }
  split; [done|]. intros _. simpl.
  pose proof Hfind as (Hi & Hid & _)%list_find_Some. simpl in Hid.
  split.
  { exists session, course. rewrite find_session_get, Hfind. done. }
  rewrite Hid. split; [done|]. split; [|split; [|split]].
  - intros student_id. unfold records_of. simpl.
    rewrite list_filter_filter. apply elem_of_nil_inv.
    intros r [[Hk Hne] _]%list_elem_of_filter.
    apply attendance_key_eq in Hk as [Hk _]. congruence.
  - intros other student_id Hother. unfold records_of. simpl.
    rewrite list_filter_filter. apply list_filter_iff.
    intros r. split; [tauto|]. intros Hk. split; [done|].
    apply attendance_key_eq in Hk as [-> _]. congruence.
  - rewrite length_delete by (by eexists).
    apply lookup_lt_Some in Hi. lia.
  - repeat split.
    + unfold unique_attendance. simpl. intros Hnd.
      eapply sublist_NoDup; [exact Hnd|]. apply fmap_sublist, sublist_filter.
    + intros Hnd. apply first_None. intros s Hs Hids.
      apply (delete_key_absent Session.id _ i session Hnd Hi).
      rewrite Hid, <-Hids. by apply list_elem_of_fmap_2.
Qed.

Lemma delete_session_cascades_witness :
  attendance_records (delete_session sample_db (str 2) 1001).2
  = [sample_record 1 1000 10 PRESENT; sample_record 3 1002 10 EXCUSED]
  /\ get Session.id (sessions (delete_session sample_db (str 2) 1001).2) 1001
     = None.
Proof.
  destruct (delete_session_cascades sample_db (str 2) 1001) as [_ Hok].
  destruct Hok as (_ & Hrecords & _ & _ & _ & _ & _ & _ & _ & _ & Hgone);
    [reflexivity|].
  split.
  - rewrite Hrecords. reflexivity.
  - apply Hgone. apply (bool_decide_unpack _). vm_compute. exact I.
Defined.

(** * Who may read what *)



(** X16: the lecturer of a course is refused its attendance matrix.
    [get_course_attendance] compares the integer [lecturer_id] with the
    identity string, so a LECTURER gets 403 Unauthorized for every existing
    course, the lecturer's own included, where [get_course] answers 200 for
    the same requester and course. *)
Theorem lecturer_matrix_refused db current_user_id course_id user course :
  get User.id (users db) (int current_user_id) = Some user ->
  User.role user = LECTURER ->
  get Course.id (courses db) course_id = Some course ->
  Course.lecturer_id course = int current_user_id ->
  get_course_attendance db current_user_id course_id
  = (error "Unauthorized", 403)
  /\ get_course db current_user_id course_id
     = (course_body (Course_to_dict db course), 200).
Proof.
  intros Hu Hrole Hc Hown. split.
  - unfold get_course_attendance. rewrite Hu, Hrole, Hc.
    rewrite bool_decide_eq_false_2
      by (intros Hn; apply Hn; apply list_elem_of_here).
    by rewrite bool_decide_eq_true_2.
  - unfold get_course. rewrite Hu, Hrole, Hc.
    by rewrite bool_decide_eq_false_2 by (intros H; by apply H).
Qed.

Lemma lecturer_matrix_refused_witness :
  get_course_attendance sample_db (str 2) 100 = (error "Unauthorized", 403).
Proof.
  apply (lecturer_matrix_refused sample_db (str 2) 100
           (User.mk 2 "lecturer@uni" LECTURER true)
           (Course.mk 100 "CS101" "Programming" 2 ACTIVE)); reflexivity.
Defined.

(** ** The roster of [get_course_students] *)

Lemma course_students_inv db current_user_id course_id c students total :
  get_course_students db current_user_id course_id
  = (course_students c students total, 200) ->
  exists course,
    get Course.id (courses db) course_id = Some course
    /\ c = Course_to_dict db course
    /\ total = Z.of_nat (length students)
    /\ mapM (enrolled_student_data db)
         (filter (fun e => Enrollment.course_id e = course_id
                           /\ Enrollment.is_active e = true) (enrollments db))
       = Some students.
Proof.
  unfold get_course_students.
  destruct (get User.id _ _); [|done]. case_bool_decide; [done|].
  destruct (get Course.id _ _) as [course|]; [|done].
  destruct (_ && _); [done|].
  destruct (mapM _ _) as [l|] eqn:Hl; [|done].
  intros [= <- <- <-]. by exists course.
Qed.

Lemma enrolled_students_data db (E : list Enrollment.t) L :
  mapM (enrolled_student_data db) E = Some L ->
  Forall2 (fun e s => get Student.id (students db) (Enrollment.student_id e)
                      = Some s) E (fst <$> L).
Proof.
  intros H%mapM_Some. induction H as [|e y E L Hy _ IH]; csimpl; [done|].
  constructor; [|done]. unfold enrolled_student_data in Hy.
  destruct (get Student.id _ _); [|done]. by injection Hy as <-.
Qed.

Lemma get_Some_id {A} (pk : A -> Z) (tbl : list A) i x :
  get pk tbl i = Some x -> x ∈ tbl /\ pk x = i.
Proof. intros H. by apply first_Some in H. Qed.

(** X17: [get_course_students] and the attendance views agree on who is
    enrolled. With distinct student keys and the pair constraint on
    enrollments, the students listed by [get_course_students] are, up to
    order, the students that the session view and the course matrix
    iterate over, each once, and [total_students] is their number. *)
Theorem course_students_is_roster
    db current_user_id course_id c students total :
  student_ids_distinct db -> unique_enrollment db ->
  get_course_students db current_user_id course_id
  = (course_students c students total, 200) ->
  fst <$> students ≡ₚ enrolled_students db course_id
  /\ total = Z.of_nat (length (enrolled_students db course_id)).
Proof.
  intros Hids Hpairs (course & _ & _ & -> & Hm)%course_students_inv.
  set (E := filter _ (enrollments db)) in Hm.
  pose proof (enrolled_students_data db E students Hm) as Hdata.
  rewrite enrolled_students_roster.
  assert (Hperm : fst <$> students ≡ₚ roster db course_id).
  { apply NoDup_Permutation.
    - apply (NoDup_fmap_1 Student.id).
      assert (Student.id <$> (fst <$> students) = Enrollment.student_id <$> E)
        as ->.
      { clear -Hdata. induction Hdata as [|e s E S Hs _ IH]; csimpl; [done|].
        apply get_Some_id in Hs as [_ ->]. by rewrite IH. }
      apply (NoDup_fmap_1 (fun x => (x, course_id))).
      assert ((fun x => (x, course_id)) <$> (Enrollment.student_id <$> E)
              = enrollment_key <$> E) as ->.
      { rewrite <-list_fmap_compose. apply Forall_fmap_ext_1, Forall_forall.
        intros e [[Hc _] _]%list_elem_of_filter. simpl.
        unfold enrollment_key. by rewrite Hc. }
      eapply sublist_NoDup; [exact Hpairs|]. apply fmap_sublist, sublist_filter.
    - apply NoDup_filter. by apply (NoDup_fmap_1 Student.id).
    - intros s. unfold roster. rewrite list_elem_of_filter. split.
      + intros [i Hi]%list_elem_of_lookup_1.
        destruct (Forall2_lookup_r _ _ _ _ _ Hdata Hi) as (e & He & Hs).
        apply list_elem_of_lookup_2 in He.
        apply list_elem_of_filter in He as [[Hc Hact] He].
        apply get_Some_id in Hs as [Hs Hid]. split; [|done].
        exists e. by rewrite Hid.
      + intros [(e & He & Hid & Hc & Hact) Hs].
        assert (e ∈ E) as [i Hi]%list_elem_of_lookup_1
          by (by apply list_elem_of_filter).
        destruct (Forall2_lookup_l _ _ _ _ _ Hdata Hi) as (s' & Hs' & Hget).
        rewrite Hid, (get_unique _ _ _ Hids Hs) in Hget. injection Hget as <-.
        by eapply list_elem_of_lookup_2. }
  split; [done|]. by rewrite <-Hperm, length_fmap.
Qed.

Lemma course_students_is_roster_witness :
  exists c students,
    get_course_students sample_db (str 2) 100
    = (course_students c students 2, 200)
    /\ fst <$> students ≡ₚ enrolled_students sample_db 100.
Proof.
  eexists. eexists. split; [vm_compute; reflexivity|].
  refine (proj1 (course_students_is_roster sample_db (str 2) 100 _ _ 2 _ _ _)).
  - apply (bool_decide_unpack _). vm_compute. exact I.
  - apply (bool_decide_unpack _). vm_compute. exact I.
  - vm_compute. reflexivity.
Defined.

(** X18: the two student counts of [get_course_students] differ by the
    inactive enrollments. The [total_students] inside the course dictionary
    counts every enrollment row of the course, the [total_students] of the
    answer only the active ones: the first is the second plus the number of
    inactive rows of the course. *)
Theorem course_dict_counts_inactive
    db current_user_id course_id c students total :
  get_course_students db current_user_id course_id
  = (course_students c students total, 200) ->
  dict_total_students c
  = total + Z.of_nat (length (filter
      (fun e => Enrollment.course_id e = course_id
                /\ Enrollment.is_active e = false) (enrollments db)))
  /\ total <= dict_total_students c.
Proof.
  intros (course & Hc & -> & -> & Hm)%course_students_inv.
  apply get_Some_id in Hc as [_ Hid].
  apply mapM_Some, Forall2_length in Hm. rewrite <-Hm. simpl. rewrite Hid.
  assert (Hsplit : forall l : list Enrollment.t,
    length (filter (fun e => Enrollment.course_id e = course_id) l)
    = (length (filter (fun e => Enrollment.course_id e = course_id
                                /\ Enrollment.is_active e = true) l)
       + length (filter (fun e => Enrollment.course_id e = course_id
                                  /\ Enrollment.is_active e = false) l))%nat).
  { induction l as [|e l IH]; [done|]. rewrite !filter_cons.
    destruct (decide (Enrollment.course_id e = course_id)) as [Hc|Hc];
      destruct (Enrollment.is_active e) eqn:Hact;
      repeat (case_decide; try (intuition congruence)); simpl; lia. }
  rewrite (Hsplit (enrollments db)). lia.
Qed.

Lemma course_dict_counts_inactive_witness :
  exists c students,
    get_course_students sample_db (str 2) 100
    = (course_students c students 2, 200)
    /\ dict_total_students c = 3.
Proof.
  assert (exists c students,
            get_course_students sample_db (str 2) 100
            = (course_students c students 2, 200)) as (c & students & H)
    by (eexists; eexists; vm_compute; reflexivity).
  exists c, students. split; [exact H|].
  destruct (course_dict_counts_inactive _ _ _ _ _ _ H) as [Heq _].
  rewrite Heq. reflexivity.
Defined.

(** * Counting in the views *)

Lemma records_by_status (records : list AttendanceRecord.t) :
  Z.of_nat (length records)
  = count_status [PRESENT] records + count_status [LATE] records
    + count_status [ABSENT] records + count_status [EXCUSED] records.
Proof.
  unfold count_status. induction records as [|r l IH]; [done|].
  rewrite !filter_cons. simpl length.
  destruct (AttendanceRecord.status r) eqn:Hst;
    repeat (case_decide as H;
            [|try (destruct H; apply list_elem_of_here)];
            try (apply list_elem_of_singleton in H; discriminate H));
    simpl length; lia.
Qed.

(** X19: the student view accounts for every listed record exactly once:
    [present + late + absent + excused = total_sessions], and
    [total_sessions] is the number of records listed. *)
Theorem student_view_counts_partition
    strptime_date db current_user_id student_id args v :
  get_student_attendance strptime_date db current_user_id student_id args
  = (student_view v, 200) ->
  let s := StudentView.stats v in
  StudentView.present s + StudentView.late s + StudentView.absent s
  + StudentView.excused s = StudentView.total_sessions s
  /\ StudentView.total_sessions s
     = Z.of_nat (length (StudentView.attendance_records v))
  /\ 0 <= StudentView.present s /\ 0 <= StudentView.late s
  /\ 0 <= StudentView.absent s /\ 0 <= StudentView.excused s.
Proof.
  intros (records & _ & Hlisted & Hstats)%student_view_inv. cbv zeta.
  rewrite Hlisted, length_fmap. unfold student_statistics in Hstats.
  destruct (rate _ _) as [x|]; [|done]. simpl in Hstats.
  injection Hstats as <-. simpl.
  pose proof (records_by_status records). unfold count_status in *. lia.
Qed.

Lemma student_view_counts_partition_witness :
  exists v,
    get_student_attendance (fun _ => None) sample_db (str 1) 10 no_filter
    = (student_view v, 200)
    /\ StudentView.present (StudentView.stats v)
       + StudentView.late (StudentView.stats v)
       + StudentView.absent (StudentView.stats v)
       + StudentView.excused (StudentView.stats v) = 3.
Proof.
  assert (exists v,
            get_student_attendance (fun _ => None) sample_db (str 1) 10 no_filter
            = (student_view v, 200)) as [v Hv]
    by (eexists; vm_compute; reflexivity).
  exists v. split; [exact Hv|].
  destruct (student_view_counts_partition _ _ _ _ _ _ Hv) as (Hsum & Htotal & _).
  rewrite Hsum, Htotal. vm_compute in Hv. injection Hv as <-. reflexivity.
Defined.

Lemma dicts_by_status (dicts : list attendance_dict) :
  Z.of_nat (length dicts)
  = count_dict_status ["PRESENT"] dicts + count_dict_status ["LATE"] dicts
    + count_dict_status ["ABSENT"] dicts + entries_with "EXCUSED" dicts.
Proof.
  unfold count_dict_status, entries_with.
  induction dicts as [|d l IH]; [done|].
  rewrite !filter_cons. simpl length.
  assert (Hcases : dict_status d = "PRESENT" \/ dict_status d = "LATE"
                   \/ dict_status d = "ABSENT" \/ dict_status d = "EXCUSED").
  { destruct d as [r|]; simpl; [destruct (AttendanceRecord.status r)|]; tauto. }
  destruct Hcases as [Hd|[Hd|[Hd|Hd]]]; rewrite Hd;
    repeat (case_decide as H;
            [|try (destruct H; (reflexivity || apply list_elem_of_here))];
            try (apply list_elem_of_singleton in H; discriminate H);
            try discriminate H);
    simpl length; lia.
Qed.

(** X20: the statistics of a row of the course matrix leave the excused
    cells out. [present + late + absent] plus the number of cells with
    status EXCUSED is [total_sessions]; [absent] counts stored ABSENT
    records and synthesized entries alike; [present + late] is the count
    the rate is computed from. *)
Theorem course_row_counts db current_user_id course_id v row :
  get_course_attendance db current_user_id course_id = (course_view v, 200) ->
  row ∈ CourseView.attendance_matrix v ->
  let s := CourseView.stats row in
  let dicts := CourseView.attendance <$> CourseView.sessions row in
  CourseView.present s + CourseView.late s + CourseView.absent s
  + entries_with "EXCUSED" dicts = CourseView.total_sessions s
  /\ CourseView.present s + CourseView.late s + CourseView.absent s
     <= CourseView.total_sessions s
  /\ CourseView.absent s = entries_with "ABSENT" dicts
  /\ CourseView.present s + CourseView.late s = attended_cells row.
Proof.
  intros [_ Hrows]%course_view_inv Hin. cbv zeta.
  apply course_rows_Some in Hrows as [_ Hrow]. specialize (Hrow row Hin).
  pose proof (attended_cells_count row) as Hatt.
  unfold course_row in Hrow. destruct (rate _ _) as [x|]; [|done].
  simpl in Hrow. injection Hrow as Hrow. rewrite <-Hrow in *. simpl in *.
  set (dicts := CourseView.attendance <$> _) in *.
  pose proof (dicts_by_status dicts) as Hsum.
  assert (Hlen : length dicts = length (course_sessions_of db course_id))
    by (subst dicts; by rewrite !length_fmap).
  assert (Habs : count_dict_status ["ABSENT"] dicts = entries_with "ABSENT" dicts).
  { unfold count_dict_status, entries_with. do 2 f_equal.
    apply list_filter_iff. intros d. by rewrite list_elem_of_singleton. }
  assert (Hpl : count_dict_status ["PRESENT"; "LATE"] dicts
                = count_dict_status ["PRESENT"] dicts
                  + count_dict_status ["LATE"] dicts).
  { unfold count_dict_status. clear. induction dicts as [|d l IH]; [done|].
    rewrite !filter_cons.
    assert (Hcases : dict_status d = "PRESENT" \/ dict_status d = "LATE"
                     \/ dict_status d = "ABSENT" \/ dict_status d = "EXCUSED").
    { destruct d as [r|]; simpl; [destruct (AttendanceRecord.status r)|]; tauto. }
    destruct Hcases as [Hd|[Hd|[Hd|Hd]]]; rewrite Hd;
      repeat (case_decide as H;
              [|try (destruct H; (apply list_elem_of_here
                                  || apply list_elem_of_further, list_elem_of_here))];
              try (apply list_elem_of_singleton in H; discriminate H);
              try (apply elem_of_cons in H as [H|H];
                   [discriminate H|
                    apply list_elem_of_singleton in H; discriminate H]));
      simpl length; lia. }
  unfold entries_with in *. lia.
Qed.

Lemma course_row_counts_witness :
  exists v row,
    get_course_attendance sample_db (str 1) 100 = (course_view v, 200)
    /\ row ∈ CourseView.attendance_matrix v
    /\ CourseView.present (CourseView.stats row)
       + CourseView.late (CourseView.stats row)
       + CourseView.absent (CourseView.stats row) = 2
    /\ CourseView.total_sessions (CourseView.stats row) = 3.
Proof.
  assert (exists v row,
            get_course_attendance sample_db (str 1) 100 = (course_view v, 200)
            /\ CourseView.attendance_matrix v !! 0%nat = Some row)
    as (v & row & Hv & Hrow)
    by (eexists; eexists; split; vm_compute; reflexivity).
  exists v, row. split; [exact Hv|].
  assert (Hin : row ∈ CourseView.attendance_matrix v)
    by (by apply list_elem_of_lookup_2 with 0%nat).
  split; [exact Hin|].
  destruct (course_row_counts _ _ _ _ _ Hv Hin) as (Hsum & _).
  vm_compute in Hv. injection Hv as <-. vm_compute in Hrow.
  injection Hrow as <-. split; reflexivity.
Defined.

(** ** The filters of the student view *)

Lemma join_session_satisfies db (f : Session.t -> bool) r :
  join_session db f r = true <-> session_satisfies db (fun s => f s = true) r.
Proof.
  unfold join_session, session_satisfies.
  destruct (get Session.id _ _) as [s|]; split.
  - intros Hf. by exists s.
  - by intros (s' & [= <-] & Hf).
  - done.
  - by intros (s' & ? & _).
Qed.

Lemma join_session_course db c r :
  join_session db (fun s => bool_decide (Session.course_id s = c)) r = true
  <-> session_satisfies db (fun s => Session.course_id s = c) r.
Proof.
  rewrite join_session_satisfies. unfold session_satisfies.
  split; intros (s & Hs & Hc); exists s; split; try done.
  - by apply bool_decide_eq_true_1 in Hc.
  - by apply bool_decide_eq_true_2.
Qed.

Section StudentFilters.
Variable strptime_date : string -> option date.

(** The records a query returns are the records of the student that pass
    each filter given. *)
Lemma student_query_members db student_id args records :
  student_query strptime_date db student_id args = inr records ->
  forall r,
    r ∈ records <->
    r ∈ attendance_records db
    /\ AttendanceRecord.student_id r = student_id
    /\ course_filter db (arg_course_id args) r
    /\ date_filter strptime_date db
         (fun d s => date_ge (Session.session_date s) d) (arg_date_from args) r
    /\ date_filter strptime_date db
         (fun d s => date_le (Session.session_date s) d) (arg_date_to args) r.
Proof.
  unfold student_query, course_filter, date_filter, query_all, join_filter.
  destruct (arg_course_id args) as [c|];
    destruct (arg_date_from args) as [from|];
    destruct (arg_date_to args) as [to|];
    repeat case_bool_decide;
    repeat match goal with
           | |- context [strptime_date ?t] =>
               destruct (strptime_date t) eqn:?
           end;
    intros [= <-] || done;
    intros r; simpl; rewrite ?list_elem_of_filter, ?join_session_course,
                ?join_session_satisfies;
    (split; [intros; repeat split; intuition eauto
            | intros (Hin & Hst & Hc & Hf & Ht); repeat split; try done;
              repeat match goal with
                     | H : _ \/ _ |- _ => destruct H as [H|H]; [done|]
                     | H : exists d, _ = Some d /\ _ |- _ =>
                         destruct H as (? & ? & H)
                     end;
              simplify_eq; done]).
Qed.

(** A query that is answered applied one filter at most. *)
Lemma student_query_joins db student_id args records :
  student_query strptime_date db student_id args = inr records ->
  (applied_filters args <= 1)%nat.
Proof.
  unfold student_query, applied_filters, query_all, join_filter.
  destruct (arg_course_id args) as [c|];
    destruct (arg_date_from args) as [from|];
    destruct (arg_date_to args) as [to|]; simpl;
    repeat case_bool_decide; simpl;
    repeat match goal with
           | |- context [strptime_date ?t] => destruct (strptime_date t)
           end;
    simpl; intros [= <-] || done; lia.
Qed.

(** X21: the filters of the student view join the session table, each on
    its own, so that one filter at most can be applied. A query that is
    answered applied at most one filter, and the records listed are exactly
    the records of the student whose session row exists and satisfies the
    filter given: the course, a date not before [date_from], a date not
    after [date_to]. A missing argument, a [course_id] of 0 and an empty
    date string filter nothing, and then a record needs no session row.
    When every date given parses, the query is answered if at most one
    filter applies, and with two or three the database refuses the query
    and the answer is 500. *)
Theorem student_query_matches db student_id args :
  (forall records,
     student_query strptime_date db student_id args = inr records ->
     (applied_filters args <= 1)%nat
     /\ forall r,
          r ∈ records <->
          r ∈ attendance_records db
          /\ AttendanceRecord.student_id r = student_id
          /\ course_filter db (arg_course_id args) r
          /\ date_filter strptime_date db
               (fun d s => date_ge (Session.session_date s) d)
               (arg_date_from args) r
          /\ date_filter strptime_date db
               (fun d s => date_le (Session.session_date s) d)
               (arg_date_to args) r)
  /\ (date_arg_ok strptime_date (arg_date_from args) ->
      date_arg_ok strptime_date (arg_date_to args) ->
      ((applied_filters args <= 1)%nat ->
       exists records,
         student_query strptime_date db student_id args = inr records)
      /\ ((2 <= applied_filters args)%nat ->
          student_query strptime_date db student_id args
          = inl (error duplicate_join_error, 500))).
Proof.
  split.
  - intros records Hq. split.
    + by eapply student_query_joins.
    + by apply student_query_members.
  - intros Hfrom Hto. split.
    + by apply student_query_ok.
    + by apply student_query_refused.
Qed.

End StudentFilters.

Lemma student_query_matches_witness :
  student_query sample_strptime sample_db 10 sample_filter
  = inr [sample_record 2 1001 10 ABSENT; sample_record 3 1002 10 EXCUSED]
  /\ (sample_record 1 1000 10 PRESENT
      ∉ [sample_record 2 1001 10 ABSENT; sample_record 3 1002 10 EXCUSED])
  /\ student_query sample_strptime sample_db 10 sample_filters
     = inl (error duplicate_join_error, 500).
Proof.
  assert (Hq : student_query sample_strptime sample_db 10 sample_filter
               = inr [sample_record 2 1001 10 ABSENT;
                      sample_record 3 1002 10 EXCUSED]) by reflexivity.
  split; [exact Hq|]. split.
  - intros Hin.
    destruct (student_query_matches sample_strptime sample_db 10 sample_filter)
      as [Hanswered _].
    destruct (Hanswered _ Hq) as [_ Hmembers].
    apply Hmembers in Hin as (_ & _ & _ & Hfrom & _).
    destruct Hfrom as [Hempty|(d & Hd & s & Hs & Hdate)]; [discriminate Hempty|].
    vm_compute in Hd. injection Hd as <-.
    vm_compute in Hs. injection Hs as <-. vm_compute in Hdate.
    discriminate Hdate.
  - destruct (student_query_matches sample_strptime sample_db 10 sample_filters)
      as [_ Hdates].
    destruct Hdates as [_ Hrefused].
    + right. by eexists.
    + left. reflexivity.
    + apply Hrefused. vm_compute. lia.
Defined.





(** ** The rate of a row without attendance *)

Lemma rate_none_attended total :
  0 < total -> round2 <$> rate 0 total = Some (PyFloat (S754_zero false)).
Proof. destruct total; try lia. intros _. reflexivity. Qed.

(** X24: two zeros. A row of the course matrix with no attended cell has
    rate 0.0, a float, when the course has sessions, and the integer 0
    when it has none; the same holds of the student view for a student
    whose listed records are all ABSENT or EXCUSED, and for one with no
    listed record. *)
Theorem zero_rates strptime_date db current_user_id :
  (forall course_id v row,
     get_course_attendance db current_user_id course_id = (course_view v, 200) ->
     row ∈ CourseView.attendance_matrix v ->
     attended_cells row = 0 ->
     CourseView.attendance_rate (CourseView.stats row)
     = if decide (course_sessions_of db course_id = [])
       then PyInt 0 else PyFloat (S754_zero false))
  /\ (forall student_id args v,
        get_student_attendance strptime_date db current_user_id student_id args
        = (student_view v, 200) ->
        StudentView.present (StudentView.stats v) = 0 ->
        StudentView.late (StudentView.stats v) = 0 ->
        StudentView.attendance_rate (StudentView.stats v)
        = if decide (StudentView.attendance_records v = [])
          then PyInt 0 else PyFloat (S754_zero false)).
Proof.
  split.
  - intros course_id v row [_ Hrows]%course_view_inv Hin Hzero.
    apply course_rows_Some in Hrows as [_ Hrow].
    apply Hrow, course_row_Some in Hin as (_ & _ & _ & Hrate).
    rewrite Hzero in Hrate.
    destruct (course_sessions_of db course_id) as [|s l] eqn:E.
    + simpl in *. by injection Hrate.
    + rewrite rate_none_attended in Hrate by (simpl; lia).
      rewrite decide_False by done. by injection Hrate.
  - intros student_id args v (records & _ & Hlisted & Hstats)%student_view_inv
      Hp Hl.
    apply student_statistics_Some in Hstats as (_ & Hp' & Hl' & _ & _ & Hrate).
    cbv zeta in Hp', Hl', Hrate. rewrite <-Hlisted in Hp', Hl', Hrate.
    rewrite <-Hp', <-Hl', Hp, Hl in Hrate. simpl Z.add in Hrate.
    destruct (StudentView.attendance_records v) as [|d l].
    + simpl in *. by injection Hrate.
    + rewrite rate_none_attended in Hrate by (simpl; lia).
      rewrite decide_False by done. by injection Hrate.
Qed.

Lemma zero_rates_witness :
  exists v,
    get_student_attendance (fun _ => None) sample_db (str 1) 12 no_filter
    = (student_view v, 200)
    /\ StudentView.attendance_rate (StudentView.stats v) = PyInt 0.
Proof.
  assert (exists v,
            get_student_attendance (fun _ => None) sample_db (str 1) 12 no_filter
            = (student_view v, 200)) as [v Hv]
    by (eexists; vm_compute; reflexivity).
  exists v. split; [exact Hv|].
  destruct (zero_rates (fun _ => None) sample_db (str 1)) as [_ Hstudent].
  rewrite (Hstudent 12 no_filter v Hv).
  - vm_compute in Hv. injection Hv as <-. reflexivity.
  - vm_compute in Hv. injection Hv as <-. reflexivity.
  - vm_compute in Hv. injection Hv as <-. reflexivity.
Defined.
